(** * A shallow embedding of the KYC extraction pipeline

    The repository holds two scripts that a human operator runs one after
    the other:

    - [1_cv2_preprocess_and_stats.py] (module [Preprocess] below) resizes,
      grayscales and binarizes every image of a folder and writes size
      statistics;
    - [2_text_extraction_batch_and_stats.py] (module [Extract] below) packs
      the binarized images into one chat request, and parses the reply of
      the model into records.

    The Python run-time the scripts lean on is embedded first: exceptions
    ([Py]), the [str] methods the scripts call ([PyStr]), binary64
    arithmetic and the [.2f] format ([PyFloat]), list slices and sorting
    ([PyList]) and decoded JSON values with the object protocol used on
    them ([PyJson]).  The numerical and imaging libraries (OpenCV, the HTTP
    client, the JSON codec, base64) are outside the repository: each
    function of theirs is a [Variable] of a [Section], except
    [cv2.threshold] and the array mean, whose documented arithmetic is
    written out. *)

From Stdlib Require Import ZArith NArith List String Ascii Bool Lia.
From Stdlib Require Import Floats Uint63 DecimalString.
From Stdlib Require OrderedTypeEx Sorted Permutation.
Import ListNotations.

Local Open Scope string_scope.
Local Open Scope Z_scope.

(* ================================================================= *)
(** ** Exceptions and results *)

Module Py.

(** The exception classes that the two scripts can raise, each with the
    message or the name it carries where the scripts give one. *)
Inductive exn : Type :=
| ValueError (msg : string)
| FileNotFoundError (msg : string)
| NameError (name : string)
| TypeError
| AttributeError
| KeyError
| IndexError
| OverflowError
| ZeroDivisionError
| JSONDecodeError
| ConnectionError
| cv2_error.

(** A computation either returns or raises. *)
Inductive result (A : Type) : Type :=
| Ok (a : A)
| Raise (e : exn).

Arguments Ok {A} a.
Arguments Raise {A} e.

Definition bind {A B} (r : result A) (k : A -> result B) : result B :=
  match r with
  | Ok a => k a
  | Raise e => Raise e
  end.

Definition is_ok {A} (r : result A) : bool :=
  match r with Ok _ => true | Raise _ => false end.

End Py.

Import Py.

Notation "'let*' x ':=' r 'in' k" := (Py.bind r (fun x => k))
  (at level 10, x name, r at level 100, k at level 200).

(* ================================================================= *)
(** ** Python strings

    A [str] is embedded as a Rocq [string] whose characters are the code
    points below 256; the predicates below are the restrictions of
    Python's Unicode predicates to that range. *)

Module PyStr.

Definition ord (c : ascii) : N := N_of_ascii c.

Definition between (lo hi n : N) : bool := ((lo <=? n) && (n <=? hi))%N.

(** [ch.isspace()]: TAB..CR, FS..US, SPACE, NEL and NBSP. *)
Definition isspace (c : ascii) : bool :=
  let n := ord c in
  between 9 13 n || between 28 32 n || (n =? 133)%N || (n =? 160)%N.

(** [ch.isdigit()]: the decimal digits and the superscripts 1, 2, 3. *)
Definition isdigit (c : ascii) : bool :=
  let n := ord c in
  between 48 57 n || (n =? 178)%N || (n =? 179)%N || (n =? 185)%N.

(** The line boundaries of [str.splitlines] (CR LF is handled there). *)
Definition is_linebreak (c : ascii) : bool :=
  let n := ord c in
  between 10 13 n || between 28 30 n || (n =? 133)%N.

(** [ch.lower()]: A..Z and the capital letters of the Latin-1 block. *)
Definition lower_char (c : ascii) : ascii :=
  let n := ord c in
  if between 65 90 n || between 192 214 n || between 216 222 n
  then ascii_of_N (n + 32)
  else c.

Fixpoint lower (s : string) : string :=
  match s with
  | EmptyString => EmptyString
  | String c s' => String (lower_char c) (lower s')
  end.

(** [s.startswith(p)] *)
Definition startswith (s p : string) : bool := prefix p s.

(** [s.endswith(p)]: the last [len(p)] characters of [s] are [p]. *)
Definition endswith (s p : string) : bool :=
  let n := String.length s in
  let m := String.length p in
  (m <=? n)%nat && String.eqb (substring (n - m) m s) p.

(** [s.endswith((p1, ..., pk))] *)
Definition endswith_any (s : string) (ps : list string) : bool :=
  existsb (endswith s) ps.

Fixpoint lstrip (s : string) : string :=
  match s with
  | EmptyString => EmptyString
  | String c s' => if isspace c then lstrip s' else s
  end.

Fixpoint rstrip (s : string) : string :=
  match s with
  | EmptyString => EmptyString
  | String c s' =>
      match rstrip s' with
      | EmptyString => if isspace c then EmptyString else String c EmptyString
      | r => String c r
      end
  end.

(** [s.strip()] *)
Definition strip (s : string) : string := rstrip (lstrip s).

Definition CR : ascii := ascii_of_N 13.
Definition LF : ascii := ascii_of_N 10.

(** [s.splitlines()].  [cur] holds the characters of the line being read,
    last one first; [after_cr] tells that the previous character was a
    carriage return, so that a line feed right after it belongs to the
    same boundary.  A last line is produced only when it is not empty. *)
Fixpoint splitlines_from (after_cr : bool) (cur : list ascii) (s : string)
  : list string :=
  match s with
  | EmptyString =>
      match cur with
      | [] => []
      | _ => [string_of_list_ascii (rev cur)]
      end
  | String c s' =>
      if after_cr && Ascii.eqb c LF then splitlines_from false cur s'
      else if is_linebreak c
      then string_of_list_ascii (rev cur) :: splitlines_from (Ascii.eqb c CR) [] s'
      else splitlines_from false (c :: cur) s'
  end.

Definition splitlines (s : string) : list string :=
  splitlines_from false [] s.

(** [sep.join(parts)] *)
Definition join (sep : string) (parts : list string) : string :=
  concat sep parts.

(** ["".join(ch for ch in s if ch.isdigit())] keeps the characters of a
    string that satisfy a predicate, in order. *)
Fixpoint filter_chars (p : ascii -> bool) (s : string) : string :=
  match s with
  | EmptyString => EmptyString
  | String c s' => if p c then String c (filter_chars p s') else filter_chars p s'
  end.

(** [s.isdigit()] on a whole string: not empty and all digits. *)
Definition all_digits (s : string) : bool :=
  match s with
  | EmptyString => false
  | _ => forallb isdigit (list_ascii_of_string s)
  end.

(** [needle in s] *)
Definition contains (s needle : string) : bool :=
  match index 0 needle s with
  | Some _ => true
  | None => false
  end.


Definition ends_with_nocase (name word : string) : Prop :=
  exists stem e, name = stem ++ e /\ lower e = word.

(** A text within one line. *)
Definition no_linebreak (s : string) : Prop :=
  forallb (fun c => negb (is_linebreak c)) (list_ascii_of_string s) = true.

Definition nl : string := String LF EmptyString.
Definition dquote : string := String (ascii_of_N 34) EmptyString.

End PyStr.

(* ================================================================= *)
(** ** Python floats

    A [float] is an IEEE 754 binary64 number, which is what Rocq's
    primitive floats are; [+], [-], [*] and [/] are the correctly rounded
    operations in both. *)

Module PyFloat.

(** [float(z)], as the mixed arithmetic of Python converts an [int]
    operand; exact below 2^53 in magnitude, and embedded for integers
    below 2^63. *)
Definition of_int (z : Z) : float :=
  if z <? 0 then PrimFloat.opp (PrimFloat.of_uint63 (Uint63.of_Z (- z)))
  else PrimFloat.of_uint63 (Uint63.of_Z z).

(** [a / b] on two [int]s: the quotient of the operands as floats, which
    is the true quotient rounded once for operands below 2^53 in
    magnitude, as the widths and heights of images are. *)
Definition truediv_int (a b : Z) : result float :=
  if b =? 0 then Raise ZeroDivisionError
  else Ok (PrimFloat.div (of_int a) (of_int b)).

(** The magnitude of a finite float [m * 2^e], rounded towards zero. *)
Definition magnitude_floor (m : positive) (e : Z) : Z :=
  if 0 <=? e then Z.pos m * 2 ^ e else Z.pos m / 2 ^ (- e).

(** [int(x)]: truncation towards zero. *)
Definition py_int (x : float) : result Z :=
  match Prim2SF x with
  | S754_zero _ => Ok 0
  | S754_finite s m e =>
      let v := magnitude_floor m e in Ok (if s then - v else v)
  | S754_infinity _ => Raise OverflowError
  | S754_nan => Raise (ValueError "cannot convert float NaN to integer")
  end.

(** [num / den] rounded to the nearest integer, ties to even. *)
Definition round_half_even (num den : Z) : Z :=
  let q := num / den in
  let r := num mod den in
  match Z.compare (2 * r) den with
  | Lt => q
  | Gt => q + 1
  | Eq => if Z.even q then q else q + 1
  end.

(** The magnitude of a finite float in hundredths, correctly rounded. *)
Definition hundredths (m : positive) (e : Z) : Z :=
  if 0 <=? e then Z.pos m * 2 ^ e * 100
  else round_half_even (Z.pos m * 100) (2 ^ (- e)).

Definition digits (z : Z) : string :=
  NilZero.string_of_uint (N.to_uint (Z.to_N z)).

Definition two_digits (z : Z) : string :=
  if z <? 10 then "0" ++ digits z else digits z.

Definition sign_str (s : bool) : string := if s then "-" else "".

(** [f"{x:.2f}"]: the decimal expansion with two fractional digits that
    is nearest to the exact value of [x]. *)
Definition format_2f (x : float) : string :=
  match Prim2SF x with
  | S754_zero s => sign_str s ++ "0.00"
  | S754_finite s m e =>
      let h := hundredths m e in
      sign_str s ++ digits (h / 100) ++ "." ++ two_digits (h mod 100)
  | S754_infinity s => sign_str s ++ "inf"
  | S754_nan => "nan"
  end.

(** [str(z)] for an [int]. *)
Definition str_int (z : Z) : string :=
  if z <? 0 then "-" ++ digits (- z) else digits z.


End PyFloat.

(* ================================================================= *)
(** ** Python lists: slices and sorting *)

Module PyList.

(** An index of a slice, brought into [0 .. len] the way Python does:
    a negative index counts from the end, and both ends saturate. *)
Definition clip_index (len : Z) (i : Z) : Z :=
  let j := if i <? 0 then i + len else i in
  Z.max 0 (Z.min len j).

(** [l[start:stop]] with step 1; [None] is an omitted bound. *)
Definition slice {A} (start stop : option Z) (l : list A) : list A :=
  let len := Z.of_nat (List.length l) in
  let lo := match start with Some i => clip_index len i | None => 0 end in
  let hi := match stop with Some i => clip_index len i | None => len end in
  firstn (Z.to_nat (hi - lo)) (skipn (Z.to_nat lo) l).

(** [s[start:stop]] on a [str]. *)
Definition slice_str (start stop : option Z) (s : string) : string :=
  string_of_list_ascii (slice start stop (list_ascii_of_string s)).

(** [list.sort()] on strings: ascending in the code-point order.  The
    sort is stable, which equal strings cannot show; insertion sort is
    the embedding. *)
Fixpoint insert_sorted (x : string) (l : list string) : list string :=
  match l with
  | [] => [x]
  | y :: l' => if String.leb x y then x :: l else y :: insert_sorted x l'
  end.

Fixpoint sort (l : list string) : list string :=
  match l with
  | [] => []
  | x :: l' => insert_sorted x (sort l')
  end.

End PyList.

(* ================================================================= *)
(** ** Decoded JSON values and the operations the scripts apply to them *)

Module PyJson.

(** What [json.loads] and [response.json()] return: [None], a [bool], an
    [int], a [float], a [str], a [list] or a [dict].  A [dict] keeps its
    keys in insertion order, which [json.dumps] shows, so it is an
    association list with one entry per key. *)
#[local] Unset Elimination Schemes.
Inductive json : Type :=
| JNull
| JBool (b : bool)
| JInt (z : Z)
| JFloat (x : float)
| JStr (s : string)
| JArr (items : list json)
| JObj (fields : list (string * json)).
#[local] Set Elimination Schemes.

Definition dict := list (string * json).

Fixpoint dict_lookup (d : dict) (k : string) : option json :=
  match d with
  | [] => None
  | (k', v) :: d' => if String.eqb k' k then Some v else dict_lookup d' k
  end.

(** [d[k] = v]: the value of an existing key is replaced where the key
    stands; a new key goes last. *)
Fixpoint dict_store (d : dict) (k : string) (v : json) : dict :=
  match d with
  | [] => [(k, v)]
  | (k', v') :: d' =>
      if String.eqb k' k then (k, v) :: d' else (k', v') :: dict_store d' k v
  end.

Definition is_str (s : string) (v : json) : bool :=
  match v with JStr s' => String.eqb s' s | _ => false end.

(** [bool(v)], as [not v] and [if v] evaluate it. *)
Definition truthy (v : json) : bool :=
  match v with
  | JNull => false
  | JBool b => b
  | JInt z => negb (z =? 0)
  | JFloat x => negb (PrimFloat.eqb x 0%float)
  | JStr s => negb (String.eqb s "")
  | JArr items => match items with [] => false | _ => true end
  | JObj fields => match fields with [] => false | _ => true end
  end.

(** [key in v] for a [str] key. *)
Definition contains_key (key : string) (v : json) : result bool :=
  match v with
  | JObj d => Ok (match dict_lookup d key with Some _ => true | None => false end)
  | JArr items => Ok (existsb (is_str key) items)
  | JStr s => Ok (PyStr.contains s key)
  | _ => Raise TypeError
  end.

(** [v[key]] for a [str] key. *)
Definition getitem_key (v : json) (key : string) : result json :=
  match v with
  | JObj d => match dict_lookup d key with Some x => Ok x | None => Raise KeyError end
  | _ => Raise TypeError
  end.

(** [v[0]] *)
Definition getitem_0 (v : json) : result json :=
  match v with
  | JArr items => match items with x :: _ => Ok x | [] => Raise IndexError end
  | JStr s =>
      match s with
      | String c _ => Ok (JStr (String c EmptyString))
      | EmptyString => Raise IndexError
      end
  | JObj _ => Raise KeyError
  | _ => Raise TypeError
  end.

(** [v.get(key)] and [v.get(key, default)]; only a [dict] has [get]. *)
Definition get (v : json) (key : string) (default : json) : result json :=
  match v with
  | JObj d => Ok (match dict_lookup d key with Some x => x | None => default end)
  | _ => Raise AttributeError
  end.

(** [v == s] for a [str] literal [s]. *)
Definition eq_str (v : json) (s : string) : bool := is_str s v.

(** The items that [for x in v] goes through. *)
Definition iter (v : json) : result (list json) :=
  match v with
  | JArr items => Ok items
  | JObj d => Ok (map (fun kv => JStr (fst kv)) d)
  | JStr s => Ok (map (fun c => JStr (String c EmptyString)) (list_ascii_of_string s))
  | _ => Raise TypeError
  end.

(** [v.strip()]; only a [str] has [strip]. *)
Definition strip (v : json) : result string :=
  match v with
  | JStr s => Ok (PyStr.strip s)
  | _ => Raise AttributeError
  end.

(** ["".join(ch for ch in v if ch.isdigit())]: every item that [v] yields
    must be a [str]; those made of digits only are concatenated. *)
Fixpoint join_digit_items (items : list json) : result string :=
  match items with
  | [] => Ok ""
  | JStr ch :: rest =>
      let* tail := join_digit_items rest in
      Ok (if PyStr.all_digits ch then ch ++ tail else tail)
  | _ :: _ => Raise AttributeError
  end.

Definition digits_of (v : json) : result string :=
  let* items := iter v in join_digit_items items.

End PyJson.

(* ================================================================= *)
(** ** 1_cv2_preprocess_and_stats.py *)

Module Preprocess.

Import PyStr PyFloat PyList.

(** A single-channel 8-bit raster, as [cv2.cvtColor] and [cv2.threshold]
    produce it: its rows, each a list of intensities in 0..255. *)
Definition gray_image := list (list Z).

(** What the script takes from outside the repository: the size of a
    file, and OpenCV's decoder, resampler, colour conversion and JPEG
    encoder.  [imread] gives [None] for a file it cannot decode;
    [resize img (width, height)] raises for a size it refuses;
    [imencode_jpg90] is [cv2.imencode(".jpg", img, [IMWRITE_JPEG_QUALITY, 90])]
    with the length of the buffer it fills. *)
Class Extern : Type := {
  image : Type;
  shape : image -> Z * Z;
  getsize : string -> Z;
  imread : string -> option image;
  resize_INTER_AREA : image -> Z * Z -> result image;
  cvtColor_BGR2GRAY : image -> gray_image;
  imencode_jpg90 : gray_image -> bool * Z
}.

(** [os.path.splitext(filename)[0]], as [posixpath] computes it: the
    path up to its last dot, when that dot stands after the last ["/"]
    and some character that is not a dot stands between the two (between
    the start and the dot, in a path without ["/"]); the whole path
    otherwise.  The functions below read the path from its end. *)
Definition is_dot (c : ascii) : bool := Ascii.eqb c ".".

Definition is_slash (c : ascii) : bool := Ascii.eqb c "/".

(** What stands before the last dot, for a dot after the last ["/"]. *)
Fixpoint split_last_dot (rev_name : list ascii) : option (list ascii) :=
  match rev_name with
  | [] => None
  | c :: rest =>
      if is_dot c then Some rest
      else if is_slash c then None
      else split_last_dot rest
  end.

(** What stands after the last ["/"]. *)
Fixpoint rev_basename (rev_path : list ascii) : list ascii :=
  match rev_path with
  | [] => []
  | c :: rest => if is_slash c then [] else c :: rev_basename rest
  end.

Definition splitext_root (filename : string) : string :=
  match split_last_dot (rev (list_ascii_of_string filename)) with
  | None => filename
  | Some rev_root =>
      if forallb is_dot (rev_basename rev_root) then filename
      else string_of_list_ascii (rev rev_root)
  end.

(** [re.sub(r'[\s\-]+', '_', s)]: every maximal run of white space and
    hyphens becomes one underscore. *)
Definition is_sep (c : ascii) : bool := isspace c || Ascii.eqb c "-".

Fixpoint sub_runs (in_run : bool) (s : string) : string :=
  match s with
  | EmptyString => EmptyString
  | String c s' =>
      if is_sep c
      then (if in_run then sub_runs true s' else String "_" (sub_runs true s'))
      else String c (sub_runs false s')
  end.

Definition normalize_filename (filename : string) : string :=
  let name := splitext_root filename in
  sub_runs false (lower name).

(** [os.path.join(folder, name)] for a name that [os.listdir] gave. *)
Definition path_join (folder name : string) : string := folder ++ "/" ++ name.

(** [gray.mean()]: the sum of the intensities, which binary64 holds
    exactly, divided by their number; [nan] for an array without
    elements. *)
Definition pixel_sum (gray : gray_image) : Z :=
  fold_right Z.add 0 (List.concat gray).

Definition pixel_count (gray : gray_image) : Z :=
  Z.of_nat (List.length (List.concat gray)).

Definition mean (gray : gray_image) : float :=
  PrimFloat.div (of_int (pixel_sum gray)) (of_int (pixel_count gray)).

(** [cv2.threshold(src, thresh, maxval, cv2.THRESH_BINARY)] on an 8-bit
    image: OpenCV sets [dst(x,y) = maxval] where [src(x,y) > thresh] and
    [0] elsewhere, and returns the threshold it used with the image. *)
Definition threshold_binary_pixel (thresh maxval p : Z) : Z :=
  if p >? thresh then maxval else 0.

Definition threshold_THRESH_BINARY (src : gray_image) (thresh maxval : Z)
  : Z * gray_image :=
  (thresh, map (map (threshold_binary_pixel thresh maxval)) src).

(** The image that line 63 binds to [bin_image]. *)
Definition bin_image (gray : gray_image) (threshold_val : Z) : gray_image :=
  snd (threshold_THRESH_BINARY gray threshold_val 255).

(** [img[i, j]], when the image has such a pixel. *)
Definition pixel (img : gray_image) (i j : nat) : option Z :=
  match nth_error img i with
  | Some row => nth_error row j
  | None => None
  end.

(** Lines 116-126 of [main]: the offset that a file name selects. *)
Definition offset (image_file : string) : Z :=
  let filename_lower := lower image_file in
  if startswith filename_lower "license" then 20
  else if startswith filename_lower "passport" then 30
  else 0.


(** The percentage of the summary as the specification writes it:
    [100 * (1 - final / original)], or 0 if the original total is 0. *)
Definition reduced_pct (final original : Z) : float :=
  if original =? 0 then 0%float
  else PrimFloat.mul 100 (PrimFloat.sub 1 (PrimFloat.div (of_int final) (of_int original))).

Definition sum_Z (l : list Z) : Z := fold_right Z.add 0 l.

Section WithExtern.

Context {ext : Extern}.

Definition resize_image (img : image) (max_width : Z) : result image :=
  let '(h, w) := shape img in
  if w >? max_width then
    let* ratio := truediv_int max_width w in
    let* new_w := py_int (PrimFloat.mul (of_int w) ratio) in
    let* new_h := py_int (PrimFloat.mul (of_int h) ratio) in
    resize_INTER_AREA img (new_w, new_h)
  else Ok img.

(** Step 4 of [preprocess_image]. *)
Definition threshold_val (gray : gray_image) (offset : Z) : result Z :=
  let* mean_val := py_int (mean gray) in
  Ok (Z.max 0 (Z.min 255 (mean_val - offset))).

(** [preprocess_image] returns the binarized image and the size of its
    JPEG encoding; the third component of the source, the time the call
    took, is left out of the embedding. *)
Definition preprocess_image (image_path : string) (offset : Z)
  : result (gray_image * Z) :=
  match imread image_path with
  | None => Raise (ValueError ("Could not read image: " ++ image_path))
  | Some img =>
      let* resized := resize_image img 4000 in
      let gray := cvtColor_BGR2GRAY resized in
      let* t := threshold_val gray offset in
      let '(_, bin_image) := threshold_THRESH_BINARY gray t 255 in
      let '(success, buffer_len) := imencode_jpg90 bin_image in
      let final_size_bytes := if success then buffer_len else 0 in
      Ok (bin_image, final_size_bytes)
  end.

(** The file selection of [main] (lines 91-94). *)
Definition is_selected (f : string) : bool :=
  endswith_any (lower f) ["png"; "jpg"; "jpeg"].

(** The calls of [main] that touch a file, in the order they happen. *)
Inductive access : Type :=
| Getsize (path : string)
| Imread (path : string)
| Imwrite (path : string).

(** The counters that the loop of [main] updates. *)
Record totals : Type := {
  combined_original_size : Z;
  combined_final_size : Z;
  total_images_processed : Z
}.

Definition images_folder : string := "images".
Definition preprocessed_folder : string := "preprocessed_images".

(** The [for] loop of [main], with the accesses made so far (latest
    first) and the counters; an exception ends it at once. *)
Fixpoint process_images (all_images : list string) (log : list access)
  (acc : totals) : list access * result totals :=
  match all_images with
  | [] => (log, Ok acc)
  | image_file :: rest =>
      let image_path := path_join images_folder image_file in
      let original_size := getsize image_path in
      let log := Imread image_path :: Getsize image_path :: log in
      match preprocess_image image_path (offset image_file) with
      | Raise e => (log, Raise e)
      | Ok (processed_image, final_size_bytes) =>
          let normalized_name := normalize_filename image_file in
          let out_filename := normalized_name ++ "_preprocessed.jpg" in
          let save_path := path_join preprocessed_folder out_filename in
          process_images rest (Imwrite save_path :: log)
            {| combined_original_size := combined_original_size acc + original_size;
               combined_final_size := combined_final_size acc + final_size_bytes;
               total_images_processed := total_images_processed acc + 1 |}
      end
  end.

(** What the loop adds to [combined_final_size] for a file. *)
Definition final_size (image_file : string) : Z :=
  match preprocess_image (path_join images_folder image_file) (offset image_file) with
  | Ok (_, final_size_bytes) => final_size_bytes
  | Raise _ => 0
  end.

Definition original_size (image_file : string) : Z :=
  getsize (path_join images_folder image_file).

(** The figures of the summary that do not depend on the clock. *)
Record summary : Type := {
  images_processed : Z;
  original_bytes : Z;
  final_bytes : Z;
  size_reduced : Z;
  size_reduced_pct : float
}.

(** Lines 156-161. *)
Definition summarize (t : totals) : result summary :=
  let size_reduced := combined_original_size t - combined_final_size t in
  let* size_reduced_pct :=
    if combined_original_size t >? 0 then
      let* q := truediv_int (combined_final_size t) (combined_original_size t) in
      Ok (PrimFloat.mul 100 (PrimFloat.sub 1 q))
    else Ok 0%float in
  Ok {| images_processed := total_images_processed t;
        original_bytes := combined_original_size t;
        final_bytes := combined_final_size t;
        size_reduced := size_reduced;
        size_reduced_pct := size_reduced_pct |}.

(** The summary line [Size reduced (percentage)] after its label. *)
Definition size_reduced_pct_text (s : summary) : string :=
  format_2f (size_reduced_pct s) ++ "%".

(** [main], for the names that [os.listdir(images_folder)] returns. *)
Definition main (listdir : list string) : list access * result summary :=
  let all_images := filter is_selected listdir in
  match all_images with
  | [] => ([], Raise (FileNotFoundError "No images found in the 'images' folder."))
  | _ =>
      let all_images := sort all_images in
      let '(log, r) :=
        process_images all_images []
          {| combined_original_size := 0;
             combined_final_size := 0;
             total_images_processed := 0 |} in
      (log, let* t := r in summarize t)
  end.

End WithExtern.

End Preprocess.

(* ================================================================= *)
(** ** 2_text_extraction_batch_and_stats.py *)

Module Extract.

Import PyStr PyFloat PyList PyJson.

(** The part of a [requests.Response] that the script looks at;
    [json_body] is what [response.json()] returns, [None] when it raises
    [JSONDecodeError]. *)
Record response : Type := {
  status_code : Z;
  text : string;
  json_body : option json
}.

(** What the script takes from outside the repository: the process
    environment after [load_dotenv()], the bytes of a file, base64, the
    JSON codec, the HTTP client, the two readings of [time.time()], and
    the text that an f-string gives for a [float], a [list] or a
    [dict]. *)
Class Extern : Type := {
  getenv : string -> option string;
  read_bytes : string -> string;
  b64encode : string -> string;
  json_loads : string -> option json;
  json_dumps : json -> string;
  json_dumps_indent4 : json -> string;
  requests_post : string -> list (string * string) -> string -> result response;
  start_time : float;
  end_time : float;
  repr_other : json -> string
}.

(** What a run changes: the text printed so far, the content of the
    results file ([None] until it is opened for writing), the files opened
    for reading (latest first), and the module-level names that only
    some branches bind. *)
Record world : Type := {
  stdout : string;
  results : option string;
  opened : list string;
  globals : dict
}.

Definition initial_world : world :=
  {| stdout := ""; results := None; opened := []; globals := [] |}.

(** Statements: they change the world and return, or raise. *)
Definition M (A : Type) : Type := world -> result A * world.

Definition ret {A} (a : A) : M A := fun w => (Ok a, w).

Definition raise {A} (e : exn) : M A := fun w => (Raise e, w).

Definition seq {A B} (m : M A) (k : A -> M B) : M B :=
  fun w =>
    match m w with
    | (Ok a, w') => k a w'
    | (Raise e, w') => (Raise e, w')
    end.

Definition lift {A} (r : result A) : M A := fun w => (r, w).

(** [try: body except json.JSONDecodeError: handler] *)
Definition try_except_JSONDecodeError {A} (body handler : M A) : M A :=
  fun w =>
    match body w with
    | (Raise JSONDecodeError, w') => handler w'
    | other => other
    end.

Notation "x <- m ;; k" := (seq m (fun x => k))
  (at level 61, m at next level, right associativity).
Notation "m ;;; k" := (seq m (fun _ => k))
  (at level 61, right associativity).

(** [print(s)] *)
Definition print (s : string) : M unit :=
  fun w => (Ok tt, {| stdout := stdout w ++ s ++ nl; results := results w;
                      opened := opened w; globals := globals w |}).

(** [open(results_file, "w")] creates the file or empties it. *)
Definition open_results : M unit :=
  fun w => (Ok tt, {| stdout := stdout w; results := Some "";
                      opened := opened w; globals := globals w |}).

(** [results.write(s)] *)
Definition results_write (s : string) : M unit :=
  fun w => (Ok tt, {| stdout := stdout w;
                      results := Some (match results w with Some t => t ++ s | None => s end);
                      opened := opened w; globals := globals w |}).

(** [open(path, "rb").read()] *)
Definition read_file {ext : Extern} (path : string) : M string :=
  fun w => (Ok (read_bytes path),
            {| stdout := stdout w; results := results w;
               opened := path :: opened w; globals := globals w |}).

(** An assignment to a module-level name, and a use of one; a name that
    no assignment has bound raises [NameError]. *)
Definition store_name (name : string) (v : json) : M unit :=
  fun w => (Ok tt, {| stdout := stdout w; results := results w;
                      opened := opened w;
                      globals := dict_store (globals w) name v |}).

Definition load_name (name : string) : M json :=
  fun w =>
    match dict_lookup (globals w) name with
    | Some v => (Ok v, w)
    | None => (Raise (NameError name), w)
    end.

Section WithExtern.

Context {ext : Extern}.

(** [f"{v}"] *)
Definition str_value (v : json) : string :=
  match v with
  | JNull => "None"
  | JBool true => "True"
  | JBool false => "False"
  | JInt z => str_int z
  | JStr s => s
  | other => repr_other other
  end.

Definition str_option (o : option string) : string :=
  match o with Some s => s | None => "None" end.

Definition nonempty (o : option string) : option string :=
  match o with
  | Some s => if String.eqb s "" then None else Some s
  | None => None
  end.

Definition images_folder : string := "preprocessed_images".
Definition results_file : string := "results/text_extracted_results.txt".

(** Lines 13-22: the credentials; the run goes on with the key and the
    endpoint only when both are set and not empty. *)
Definition credentials : M (string * string) :=
  print ("Loaded Endpoint: " ++ str_option (getenv "FIREWORKS_ENDPOINT")) ;;;
  print ("Loaded Model: " ++ str_option (getenv "FIREWORKS_MODEL")) ;;;
  match nonempty (getenv "FIREWORKS_API_KEY"), nonempty (getenv "FIREWORKS_ENDPOINT") with
  | Some key, Some endpoint => ret (key, endpoint)
  | _, _ => raise (ValueError "Missing Fireworks API credentials in environment variables.")
  end.

(** Line 29: the names of [os.listdir(images_folder)] that are kept, in
    the order [os.listdir] gave them. *)
Definition is_selected (f : string) : bool :=
  endswith_any (lower f) ["png"; "jpg"; "jpeg"].

Definition image_files (listdir : list string) : list string :=
  filter is_selected listdir.

Definition instructions_text : string :=
  "We have multiple ID images. For each image, extract all text in an organized way. "
  ++ "I don't need a physical description of the person. I only want these printed text fields:" ++ nl ++ nl
  ++ "First name, Last name, Date of birth (DOB), Address, State, Country, "
  ++ "Drivers license (DL) number or passport number, Sex, Height (HGT), Weight (WGT), "
  ++ "Hair, Eyes, Issue date (ISS), Expiration date (EXP)." ++ nl ++ nl
  ++ "For any missing fields, respond with 'N/A'. Please return the final result in JSON, "
  ++ "as an array of objects. Each object should correspond to a single image and have the structure:" ++ nl ++ nl
  ++ "  {" ++ nl
  ++ "    " ++ dquote ++ "filename" ++ dquote ++ ": <string>," ++ nl
  ++ "    " ++ dquote ++ "id_type" ++ dquote ++ ": <string>," ++ nl
  ++ "    " ++ dquote ++ "id_number" ++ dquote ++ ": <string>," ++ nl
  ++ "    " ++ dquote ++ "first_name" ++ dquote ++ ": <string>," ++ nl
  ++ "    " ++ dquote ++ "last_name" ++ dquote ++ ": <string>," ++ nl
  ++ "    " ++ dquote ++ "dob" ++ dquote ++ ": <string>," ++ nl
  ++ "    " ++ dquote ++ "place of birth" ++ dquote ++ ": <string>," ++ nl
  ++ "    " ++ dquote ++ "address" ++ dquote ++ ": <string>," ++ nl
  ++ "    " ++ dquote ++ "state" ++ dquote ++ ": <string>," ++ nl
  ++ "    " ++ dquote ++ "country" ++ dquote ++ ": <string>," ++ nl
  ++ "    " ++ dquote ++ "class" ++ dquote ++ ": <string>," ++ nl
  ++ "    " ++ dquote ++ "sex" ++ dquote ++ ": <string>," ++ nl
  ++ "    " ++ dquote ++ "hgt" ++ dquote ++ ": <string>," ++ nl
  ++ "    " ++ dquote ++ "wgt" ++ dquote ++ ": <string>," ++ nl
  ++ "    " ++ dquote ++ "hair" ++ dquote ++ ": <string>," ++ nl
  ++ "    " ++ dquote ++ "eyes" ++ dquote ++ ": <string>," ++ nl
  ++ "    " ++ dquote ++ "issue_date_iss" ++ dquote ++ ": <string>," ++ nl
  ++ "    " ++ dquote ++ "expiration_date_exp" ++ dquote ++ ": <string>" ++ nl
  ++ "  }" ++ nl
  ++ "Use snake_case for the JSON keys, as shown above.".

(** The three kinds of dictionaries that go into [batch_content]. *)
Definition text_block (t : string) : json :=
  JObj [("type", JStr "text"); ("text", JStr t)].

Definition image_block (encoded : string) : json :=
  JObj [("type", JStr "image_url");
        ("image_url", JObj [("url", JStr ("data:image/jpeg;base64," ++ encoded))])].

(** Lines 76-81. *)
Definition id_type (image_file : string) : string :=
  if startswith (lower image_file) "license" then "drivers_license"
  else if startswith (lower image_file) "passport" then "passport"
  else "N/A".

Definition caption (image_file : string) : string :=
  "This image is named " ++ image_file ++ ". The ID type for this image is "
  ++ id_type image_file ++ ". "
  ++ "Extract the text and include the correct 'id_type' in the JSON output.".

(** Lines 74-101: the loop that appends two blocks per image. *)
Fixpoint append_images (image_files : list string) (batch_content : list json)
  : M (list json) :=
  match image_files with
  | [] => ret batch_content
  | image_file :: rest =>
      let image_path := images_folder ++ "/" ++ image_file in
      bytes <- read_file image_path ;;
      let encoded := b64encode bytes in
      append_images rest
        (batch_content ++ [image_block encoded; text_block (caption image_file)])
  end.

(** Lines 35-101. *)
Definition batch_content (image_files : list string) : M (list json) :=
  append_images image_files [text_block instructions_text].

(** The path under which an image is opened, and the two blocks that
    the loop appends for it. *)
Definition image_path (image_file : string) : string :=
  images_folder ++ "/" ++ image_file.

Definition image_blocks (image_file : string) : list json :=
  [image_block (b64encode (read_bytes (image_path image_file)));
   text_block (caption image_file)].

(** Lines 104-127. *)
Definition payload (batch_content : list json) : json :=
  JObj [("model", match getenv "FIREWORKS_MODEL" with Some m => JStr m | None => JNull end);
        ("max_tokens", JInt 4096);
        ("top_p", JInt 1);
        ("top_k", JInt 100);
        ("presence_penalty", JInt 0);
        ("frequency_penalty", JInt 0);
        ("temperature", JInt 0);
        ("messages", JArr [JObj [("role", JStr "user");
                                 ("content", JArr batch_content)]])].

Definition headers (api_key : string) : list (string * string) :=
  [("Accept", "application/json");
   ("Content-Type", "application/json");
   ("Authorization", "Bearer " ++ api_key)].

(** The fence marker of lines 160: three backticks. *)
Definition fence : string := "```".

(** Lines 160-164, on the reply that line 159 has stripped. *)
Definition remove_fences (content_str : string) : string :=
  if startswith content_str fence && endswith content_str fence then
    let lines := splitlines content_str in
    let lines := slice (Some 1) (Some (-1)) lines in
    PyStr.strip (join nl lines)
  else content_str.

(** Lines 159-164: the text that [json.loads] is given. *)
Definition content_str (content : json) : result string :=
  let* stripped := PyJson.strip content in
  Ok (remove_fences stripped).

(** [item[key] = v] *)
Definition setitem (item : json) (key : string) (v : json) : result json :=
  match item with
  | JObj d => Ok (JObj (dict_store d key v))
  | _ => Raise TypeError
  end.

(** Lines 173-178: what the loop does to one item before it is written. *)
Definition post_process (item : json) : result json :=
  let* t := get item "id_type" JNull in
  if eq_str t "passport" then
    let* original_id := get item "id_number" (JStr "") in
    let* digits_only := digits_of original_id in
    setitem item "id_number" (JStr (slice_str None (Some 9) digits_only))
  else Ok item.

(** Lines 172-180: the loop over [extracted_batch]; it returns the items
    as the loop leaves them, since [json.dumps(extracted_batch)] on line
    184 sees the items that the loop has changed. *)
Fixpoint write_records (items : list json) : M (list json) :=
  match items with
  | [] => ret []
  | item :: rest =>
      item' <- lift (post_process item) ;;
      results_write (json_dumps_indent4 item' ++ nl ++ nl) ;;;
      rest' <- write_records rest ;;
      ret (item' :: rest')
  end.

Definition with_items (extracted_batch : json) (items : list json) : json :=
  match extracted_batch with
  | JArr _ => JArr items
  | other => other
  end.

Definition loads (s : string) : result json :=
  match json_loads s with
  | Some v => Ok v
  | None => Raise JSONDecodeError
  end.

(** Lines 167-187. *)
Definition parse_and_write (content_str : string) : M unit :=
  try_except_JSONDecodeError
    (extracted_batch <- lift (loads content_str) ;;
     items <- lift (iter extracted_batch) ;;
     items' <- write_records items ;;
     print (nl ++ "Extracted text saved to:" ++ " " ++ results_file) ;;;
     print (nl ++ "Parsed JSON:" ++ nl ++ " "
            ++ json_dumps_indent4 (with_items extracted_batch items')))
    (results_write ("The assistant response was not valid JSON." ++ nl) ;;;
     print "The assistant response was not valid JSON even after removing code fences.").

(** Lines 195-205. *)
Definition write_statistics (n_images : Z) (duration_ms average_ms_per_image : float)
  (prompt_tokens completion_tokens total_tokens : json) : M unit :=
  results_write (nl ++ "--- Performance & Design Statistics ---" ++ nl) ;;;
  results_write ("Number of images processed: " ++ str_int n_images ++ nl) ;;;
  results_write ("Total number of API calls: " ++ str_int 1 ++ nl) ;;;
  results_write ("Total time for request: " ++ format_2f duration_ms ++ " ms" ++ nl) ;;;
  results_write ("Average time per image: " ++ format_2f average_ms_per_image ++ " ms" ++ nl) ;;;
  results_write (nl ++ "--- Usage / Token Statistics ---" ++ nl) ;;;
  results_write ("  Prompt tokens: " ++ str_value prompt_tokens ++ nl) ;;;
  results_write ("  Completion tokens: " ++ str_value completion_tokens ++ nl) ;;;
  results_write ("  Total tokens used: " ++ str_value total_tokens ++ nl).

Definition zero_counters : M unit :=
  store_name "prompt_tokens" (JInt 0) ;;;
  store_name "completion_tokens" (JInt 0) ;;;
  store_name "total_tokens" (JInt 0).

(** Line 156: [response_json["choices"][0]["message"]["content"]]. *)
Definition message_content (response_json : json) : result json :=
  let* choices := getitem_key response_json "choices" in
  let* first := getitem_0 choices in
  let* message := getitem_key first "message" in
  getitem_key message "content".

(** Lines 150-214: the branch of status 200. *)
Definition on_status_200 (r : response) (n_images : Z)
  (duration_ms average_ms_per_image : float) : M unit :=
  try_except_JSONDecodeError
    (response_json <-
       lift (match json_body r with Some v => Ok v | None => Raise JSONDecodeError end) ;;
     has_choices <- lift (contains_key "choices" response_json) ;;
     no_choices <-
       (if negb has_choices then ret true
        else choices <- lift (getitem_key response_json "choices") ;;
             ret (negb (truthy choices))) ;;
     (if no_choices : bool then print "No valid content found in the response."
      else
        content <- lift (message_content response_json) ;;
        text <- lift (content_str content) ;;
        parse_and_write text) ;;;
     usage_info <- lift (get response_json "usage" (JObj [])) ;;
     prompt_tokens <- lift (get usage_info "prompt_tokens" (JInt 0)) ;;
     store_name "prompt_tokens" prompt_tokens ;;;
     completion_tokens <- lift (get usage_info "completion_tokens" (JInt 0)) ;;
     store_name "completion_tokens" completion_tokens ;;;
     total_tokens <- lift (get usage_info "total_tokens" (JInt 0)) ;;
     store_name "total_tokens" total_tokens ;;;
     write_statistics n_images duration_ms average_ms_per_image
       prompt_tokens completion_tokens total_tokens)
    (results_write ("Error: Unable to parse response as JSON." ++ nl) ;;;
     print "Error: Unable to parse response as JSON." ;;;
     zero_counters).

(** [results.write(v)] for the value of a name: only a [str] is written. *)
Definition results_write_value (v : json) : M unit :=
  match v with
  | JStr s => results_write s
  | _ => raise TypeError
  end.

(** Lines 215-223: the branch of any other status.  No line of the script
    assigns [error_msg]. *)
Definition on_other_status (r : response) : M unit :=
  print ("Error " ++ str_int (status_code r) ++ ": " ++ text r) ;;;
  error_msg <- load_name "error_msg" ;;
  results_write_value error_msg ;;;
  error_msg <- load_name "error_msg" ;;
  print (str_value error_msg) ;;;
  zero_counters.

(** Lines 146-223: the [with] block. *)
Definition handle_response (r : response) (n_images : Z)
  (duration_ms average_ms_per_image : float) : M unit :=
  open_results ;;;
  if status_code r =? 200
  then on_status_200 r n_images duration_ms average_ms_per_image
  else on_other_status r.

(** Lines 225-235. *)
Definition report (n_images : Z) (duration_ms average_ms_per_image : float) : M unit :=
  print (nl ++ "--- Performance & Design Statistics ---") ;;;
  print ("Number of images processed: " ++ str_int n_images) ;;;
  print ("Total number of API calls: " ++ str_int 1) ;;;
  print ("Total time for request: " ++ format_2f duration_ms ++ " ms") ;;;
  print ("Average time per image: " ++ format_2f average_ms_per_image ++ " ms" ++ nl) ;;;
  print "Usage / Token Statistics:" ;;;
  prompt_tokens <- load_name "prompt_tokens" ;;
  print ("  Prompt tokens: " ++ str_value prompt_tokens) ;;;
  completion_tokens <- load_name "completion_tokens" ;;
  print ("  Completion tokens: " ++ str_value completion_tokens) ;;;
  total_tokens <- load_name "total_tokens" ;;
  print ("  Total tokens used: " ++ str_value total_tokens ++ nl).

(** Lines 142-143. *)
Definition duration_ms : float :=
  PrimFloat.mul (PrimFloat.sub end_time start_time) (of_int 1000).

Definition average_ms_per_image (n_images : Z) : float :=
  PrimFloat.div duration_ms (of_int n_images).

(** Lines 146-235, once the response is there. *)
Definition after_response (r : response) (n_images : Z) : M unit :=
  handle_response r n_images duration_ms (average_ms_per_image n_images) ;;;
  report n_images duration_ms (average_ms_per_image n_images).

(** The whole script, for the names that [os.listdir(images_folder)]
    returns. *)
Definition script (listdir : list string) : M unit :=
  creds <- credentials ;;
  let '(api_key, endpoint) := creds in
  match image_files listdir with
  | [] => raise (FileNotFoundError "No images found in the 'preprocessed_images' folder.")
  | files =>
      content <- batch_content files ;;
      r <- lift (requests_post endpoint (headers api_key) (json_dumps (payload content))) ;;
      after_response r (Z.of_nat (List.length files))
  end.

(** A run of the script from the start. *)
Definition run (listdir : list string) : result unit * world :=
  script listdir initial_world.

End WithExtern.

(** The texts that a run leaves, written out: the two lines printed
    before anything else, the statistics of lines 195-205 in the results
    file, and the statistics of lines 226-235 on the console. *)
Definition preamble {ext : Extern} : string :=
  ("Loaded Endpoint: " ++ str_option (getenv "FIREWORKS_ENDPOINT") ++ nl)
  ++ "Loaded Model: " ++ str_option (getenv "FIREWORKS_MODEL") ++ nl.

Definition statistics_text {ext : Extern} (n_images : Z) (duration_ms average_ms_per_image : float)
  (prompt_tokens completion_tokens total_tokens : json) : string :=
  concat ""
    [nl ++ "--- Performance & Design Statistics ---" ++ nl;
     "Number of images processed: " ++ str_int n_images ++ nl;
     "Total number of API calls: " ++ str_int 1 ++ nl;
     "Total time for request: " ++ format_2f duration_ms ++ " ms" ++ nl;
     "Average time per image: " ++ format_2f average_ms_per_image ++ " ms" ++ nl;
     nl ++ "--- Usage / Token Statistics ---" ++ nl;
     "  Prompt tokens: " ++ str_value prompt_tokens ++ nl;
     "  Completion tokens: " ++ str_value completion_tokens ++ nl;
     "  Total tokens used: " ++ str_value total_tokens ++ nl].

Definition report_text {ext : Extern} (n_images : Z) (duration_ms average_ms_per_image : float)
  (prompt_tokens completion_tokens total_tokens : json) : string :=
  concat ""
    [(nl ++ "--- Performance & Design Statistics ---") ++ nl;
     ("Number of images processed: " ++ str_int n_images) ++ nl;
     ("Total number of API calls: " ++ str_int 1) ++ nl;
     ("Total time for request: " ++ format_2f duration_ms ++ " ms") ++ nl;
     ("Average time per image: " ++ format_2f average_ms_per_image ++ " ms" ++ nl) ++ nl;
     "Usage / Token Statistics:" ++ nl;
     ("  Prompt tokens: " ++ str_value prompt_tokens) ++ nl;
     ("  Completion tokens: " ++ str_value completion_tokens) ++ nl;
     ("  Total tokens used: " ++ str_value total_tokens ++ nl) ++ nl].

(** [d.get(key, default)] on the fields of a [dict]. *)
Definition field_or (d : dict) (key : string) (default : json) : json :=
  match dict_lookup d key with Some v => v | None => default end.

(** A statement that opens no file for reading. *)
Definition keeps_opened {A} (m : M A) : Prop :=
  forall w, opened (snd (m w)) = opened w.

End Extract.

(* ================================================================= *)
(** ** Small concrete surroundings, on which the scripts can be run *)

Module Sample.

Import PyStr PyFloat PyList PyJson.

(** An image is its shape ([h], [w]) and one intensity that all of its
    pixels have; the resampler gives an image of the size it is asked
    for and refuses an empty size, as OpenCV does; the encoder charges 200
    bytes and 200 bytes more per pixel. *)
Definition uniform_image : Type := (Z * Z) * Z.

Definition uniform_gray (img : uniform_image) : Preprocess.gray_image :=
  let '((h, w), v) := img in
  repeat (repeat v (Z.to_nat w)) (Z.to_nat h).

Definition sample_files : list (string * (Z * uniform_image)) :=
  [("images/a.png", (1000, ((1, 1), 100)));
   ("images/b.png", (2000, ((1, 2), 100)));
   ("images/wide.jpg", (5000, ((4210, 4210), 7)))].

Fixpoint assoc {A} (k : string) (l : list (string * A)) : option A :=
  match l with
  | [] => None
  | (k', a) :: l' => if String.eqb k' k then Some a else assoc k l'
  end.

Definition cv : Preprocess.Extern :=
  {| Preprocess.image := uniform_image;
     Preprocess.shape := fst;
     Preprocess.getsize := fun path =>
       match assoc path sample_files with Some (n, _) => n | None => 0 end;
     Preprocess.imread := fun path =>
       match assoc path sample_files with Some (_, img) => Some img | None => None end;
     Preprocess.resize_INTER_AREA := fun img size =>
       let '(new_w, new_h) := size in
       if (0 <? new_w) && (0 <? new_h) then Ok ((new_h, new_w), snd img)
       else Raise cv2_error;
     Preprocess.cvtColor_BGR2GRAY := uniform_gray;
     Preprocess.imencode_jpg90 := fun g =>
       (true, 200 + 200 * Preprocess.pixel_count g) |}.

(** A process environment with the three settings, files whose bytes
    are their own path, an encoder and a JSON codec that know one text
    each, and an endpoint that answers every request with [reply]. *)
Definition http (reply : Extract.response) : Extract.Extern :=
  {| Extract.getenv := fun name =>
       if String.eqb name "FIREWORKS_API_KEY" then Some "key"
       else if String.eqb name "FIREWORKS_ENDPOINT" then Some "https://example.invalid/v1"
       else if String.eqb name "FIREWORKS_MODEL" then Some "model"
       else None;
     Extract.read_bytes := fun path => path;
     Extract.b64encode := fun bytes => "b64(" ++ bytes ++ ")";
     Extract.json_loads := fun s =>
       if String.eqb s "[]" then Some (JArr []) else None;
     Extract.json_dumps := fun _ => "{}";
     Extract.json_dumps_indent4 := fun _ => "{}";
     Extract.requests_post := fun _ _ _ => Ok reply;
     Extract.start_time := 10%float;
     Extract.end_time := 12.5%float;
     Extract.repr_other := fun _ => "?" |}.

Definition server_error : Extract.response :=
  {| Extract.status_code := 500;
     Extract.text := "Internal Server Error";
     Extract.json_body := None |}.

(** A well-formed envelope around a reply of the model. *)
Definition envelope (reply : string) : json :=
  JObj [("choices", JArr [JObj [("message", JObj [("role", JStr "assistant");
                                                   ("content", JStr reply)])]]);
        ("usage", JObj [("prompt_tokens", JInt 1200);
                        ("completion_tokens", JInt 34);
                        ("total_tokens", JInt 1234)])].

Definition answer (reply : string) : Extract.response :=
  {| Extract.status_code := 200;
     Extract.text := "";
     Extract.json_body := Some (envelope reply) |}.

End Sample.

(* ================================================================= *)
(** ** Further notions that the statements below use *)

Module Notions.

Import PyStr PyFloat PyList PyJson.

(** The file that [main] writes for an image (lines 136-139), and the
    three accesses of one turn of its loop, in the order they happen. *)
Definition save_path (image_file : string) : string :=
  Preprocess.path_join Preprocess.preprocessed_folder
    (Preprocess.normalize_filename image_file ++ "_preprocessed.jpg").

Definition accesses (image_file : string) : list Preprocess.access :=
  [Preprocess.Getsize (Preprocess.path_join Preprocess.images_folder image_file);
   Preprocess.Imread (Preprocess.path_join Preprocess.images_folder image_file);
   Preprocess.Imwrite (save_path image_file)].

(** A text none of whose characters satisfies a predicate. *)
Definition free_of (p : ascii -> bool) (s : string) : bool :=
  forallb (fun c => negb (p c)) (list_ascii_of_string s).

(** A text all of whose characters satisfy a predicate. *)
Definition all_chars (p : ascii -> bool) (s : string) : bool :=
  forallb p (list_ascii_of_string s).


(** The number of the pixels of an image and the sum of their
    intensities, taken row by row. *)
Definition number_of_pixels (gray : Preprocess.gray_image) : Z :=
  fold_right (fun row n => Z.of_nat (List.length row) + n) 0 gray.



(** The label that the Extractor gives to the class of an offset. *)
Definition label_of_offset (offset : Z) : string :=
  if offset =? 20 then "drivers_license"
  else if offset =? 30 then "passport"
  else "N/A".

(** A value that is not a [dict]. *)
Definition not_a_dict (v : json) : Prop :=
  match v with JObj _ => False | _ => True end.

(** A value that [for] cannot go through: [None], a [bool] or a number. *)
Definition not_iterable (v : json) : Prop :=
  match v with JNull | JBool _ | JInt _ | JFloat _ => True | _ => False end.

(** A text whose only line boundaries are line feeds. *)
Definition lf_only (s : string) : bool :=
  forallb (fun c => negb (is_linebreak c) || Ascii.eqb c LF) (list_ascii_of_string s).

Section WithExtern.

Context {ext : Extract.Extern}.

(** Lines 190-205: the usage of the envelope and the statistics. *)
Definition usage_and_statistics (response_json : json) (n_images : Z)
  (duration_ms average_ms_per_image : float) : Extract.M unit :=
  Extract.seq (Extract.lift (get response_json "usage" (JObj []))) (fun usage_info =>
  Extract.seq (Extract.lift (get usage_info "prompt_tokens" (JInt 0))) (fun prompt_tokens =>
  Extract.seq (Extract.store_name "prompt_tokens" prompt_tokens) (fun _ =>
  Extract.seq (Extract.lift (get usage_info "completion_tokens" (JInt 0))) (fun completion_tokens =>
  Extract.seq (Extract.store_name "completion_tokens" completion_tokens) (fun _ =>
  Extract.seq (Extract.lift (get usage_info "total_tokens" (JInt 0))) (fun total_tokens =>
  Extract.seq (Extract.store_name "total_tokens" total_tokens) (fun _ =>
  Extract.write_statistics n_images duration_ms average_ms_per_image
    prompt_tokens completion_tokens total_tokens))))))).

(** The two lines that lines 182 and 184 print after the records. *)
Definition saved_text : string :=
  nl ++ "Extracted text saved to:" ++ " " ++ Extract.results_file.

Definition parsed_text (extracted_batch : json) : string :=
  nl ++ "Parsed JSON:" ++ nl ++ " " ++ Extract.json_dumps_indent4 extracted_batch.

(** What line 180 writes for an item. *)
Definition record_text (item : json) : string :=
  Extract.json_dumps_indent4 item ++ nl ++ nl.

(** Lines 173-178 on every item of a list, up to the first that raises. *)
Fixpoint post_process_all (items : list json) : result (list json) :=
  match items with
  | [] => Ok []
  | item :: rest =>
      let* item' := Extract.post_process item in
      let* rest' := post_process_all rest in
      Ok (item' :: rest')
  end.

End WithExtern.

End Notions.

(** Further surroundings: a process environment without the API key, and
    an endpoint that cannot be reached. *)
Module MoreSamples.

Import PyJson.

Definition http_without_key : Extract.Extern :=
  {| Extract.getenv := fun name =>
       if String.eqb name "FIREWORKS_ENDPOINT" then Some "https://example.invalid/v1"
       else if String.eqb name "FIREWORKS_API_KEY" then Some ""
       else None;
     Extract.read_bytes := fun path => path;
     Extract.b64encode := fun bytes => bytes;
     Extract.json_loads := fun _ => None;
     Extract.json_dumps := fun _ => "{}";
     Extract.json_dumps_indent4 := fun _ => "{}";
     Extract.requests_post := fun _ _ _ => Ok Sample.server_error;
     Extract.start_time := 0%float;
     Extract.end_time := 1%float;
     Extract.repr_other := fun _ => "?" |}.

Definition http_down : Extract.Extern :=
  {| Extract.getenv := fun name =>
       if String.eqb name "FIREWORKS_ENDPOINT" then Some "https://example.invalid/v1"
       else if String.eqb name "FIREWORKS_API_KEY" then Some "key"
       else None;
     Extract.read_bytes := fun path => path;
     Extract.b64encode := fun bytes => bytes;
     Extract.json_loads := fun _ => None;
     Extract.json_dumps := fun _ => "{}";
     Extract.json_dumps_indent4 := fun _ => "{}";
     Extract.requests_post := fun _ _ _ => Raise ConnectionError;
     Extract.start_time := 0%float;
     Extract.end_time := 1%float;
     Extract.repr_other := fun _ => "?" |}.

(** A codec that knows the texts of a few JSON values, and dumps a value
    as a tag of its kind followed by its first text. *)
Definition tag (v : json) : string :=
  match v with
  | JObj ((_, JStr s) :: _) => "{" ++ s ++ "}"
  | JObj _ => "{}"
  | JArr _ => "[]"
  | JStr s => s
  | _ => "?"
  end.

Definition passport_record : json :=
  JObj [("id_type", JStr "passport"); ("id_number", JStr "P-12 34A5678B90")].

Definition license_record : json :=
  JObj [("id_type", JStr "drivers_license"); ("id_number", JStr "D-12 34")].

Definition bad_record : json :=
  JObj [("id_type", JStr "passport"); ("id_number", JInt 123456789)].

Definition http_with (reply : Extract.response) : Extract.Extern :=
  {| Extract.getenv := fun name =>
       if String.eqb name "FIREWORKS_ENDPOINT" then Some "https://example.invalid/v1"
       else if String.eqb name "FIREWORKS_API_KEY" then Some "key"
       else None;
     Extract.read_bytes := fun path => path;
     Extract.b64encode := fun bytes => bytes;
     Extract.json_loads := fun s =>
       if String.eqb s "two records" then Some (JArr [passport_record; license_record])
       else if String.eqb s "bad second" then Some (JArr [license_record; bad_record; passport_record])
       else if String.eqb s "one object" then Some passport_record
       else None;
     Extract.json_dumps := tag;
     Extract.json_dumps_indent4 := tag;
     Extract.requests_post := fun _ _ _ => Ok reply;
     Extract.start_time := 10%float;
     Extract.end_time := 12.5%float;
     Extract.repr_other := fun _ => "?" |}.

Definition not_json_body : Extract.response :=
  {| Extract.status_code := 200;
     Extract.text := "<html>Bad Gateway</html>";
     Extract.json_body := None |}.

Definition without_choices : Extract.response :=
  {| Extract.status_code := 200;
     Extract.text := "";
     Extract.json_body := Some (JObj [("choices", JArr [])]) |}.

Definition null_usage (reply : string) : Extract.response :=
  {| Extract.status_code := 200;
     Extract.text := "";
     Extract.json_body :=
       Some (JObj [("choices", JArr [JObj [("message", JObj [("content", JStr reply)])]]);
                   ("usage", JNull)]) |}.

End MoreSamples.

(* ================================================================= *)
(** * Properties *)

(* ================================================================= *)
(** ** Strings, slices and sorting *)

Section PyFacts.

Import PyStr PyList.

Lemma lower_char_idempotent (c : ascii) :
  lower_char (lower_char c) = lower_char c.
Proof.
  destruct c as [[] [] [] [] [] [] [] []]; reflexivity.
Qed.

Lemma lower_idempotent (s : string) : lower (lower s) = lower s.
Proof.
  induction s as [|c s IH]; simpl.
  - reflexivity.
  - now rewrite lower_char_idempotent, IH.
Qed.

Lemma lower_app (s t : string) : lower (s ++ t) = lower s ++ lower t.
Proof.
  induction s as [|c s IH]; simpl; [reflexivity | now rewrite IH].
Qed.

Lemma prefix_app (p s : string) : prefix p (p ++ s) = true.
Proof.
  induction p as [|c p IH]; simpl.
  - now destruct s.
  - destruct (ascii_dec c c) as [_|ne]; [exact IH | now elim ne].
Qed.

(** [l[1:-1]] is [l] without its first and its last element. *)
Lemma slice_1_m1 {A} (l : list A) :
  slice (Some 1) (Some (-1)) l = removelast (tl l).
Proof.
  unfold slice, clip_index.
  destruct l as [|x l]; [reflexivity|].
  change (tl (x :: l)) with l.
  change (List.length (x :: l)) with (S (List.length l)).
  change (-1 <? 0) with true. change (1 <? 0) with false. cbv iota.
  rewrite removelast_firstn_len.
  replace (Z.to_nat (Z.max 0 (Z.min (Z.of_nat (S (List.length l))) 1))) with 1%nat by lia.
  simpl skipn. f_equal. lia.
Qed.

(** [l[:n]] keeps the first [n] elements. *)
Lemma slice_to {A} (n : nat) (l : list A) :
  slice None (Some (Z.of_nat n)) l = firstn n l.
Proof.
  unfold slice, clip_index. simpl skipn.
  destruct (Z.ltb_spec (Z.of_nat n) 0) as [Hneg|_]; [lia|].
  rewrite Z.sub_0_r.
  destruct (Nat.le_gt_cases n (List.length l)) as [Hle|Hgt].
  - f_equal. lia.
  - replace (Z.to_nat _) with (List.length l) by lia.
    now rewrite firstn_all, firstn_all2 by lia.
Qed.

Lemma In_insert_sorted (x y : string) (l : list string) :
  In y (insert_sorted x l) <-> y = x \/ In y l.
Proof.
  induction l as [|z l IH]; simpl.
  - intuition.
  - destruct (String.leb x z); simpl; rewrite ?IH; intuition.
Qed.

Lemma In_sort (y : string) (l : list string) : In y (sort l) <-> In y l.
Proof.
  induction l as [|x l IH]; simpl.
  - reflexivity.
  - rewrite In_insert_sorted, IH. intuition.
Qed.

Lemma length_insert_sorted (x : string) (l : list string) :
  List.length (insert_sorted x l) = S (List.length l).
Proof.
  induction l as [|z l IH]; simpl; [reflexivity|].
  destruct (String.leb x z); simpl; [reflexivity | now rewrite IH].
Qed.

Lemma length_sort (l : list string) : List.length (sort l) = List.length l.
Proof.
  induction l as [|x l IH]; simpl; [reflexivity|].
  now rewrite length_insert_sorted, IH.
Qed.

Lemma append_assoc (a b c : string) : (a ++ b) ++ c = a ++ (b ++ c).
Proof.
  induction a as [|x a IH]; simpl; [reflexivity | now rewrite IH].
Qed.

Lemma append_nil_r (a : string) : a ++ "" = a.
Proof.
  induction a as [|x a IH]; simpl; [reflexivity | now rewrite IH].
Qed.

(** Appending texts one after the other appends their concatenation. *)
Lemma append_all (lines : list string) :
  forall t, fold_left append lines t = t ++ concat "" lines.
Proof.
  induction lines as [|l lines IH]; intros t.
  - simpl. now rewrite append_nil_r.
  - cbn [fold_left]. rewrite IH, append_assoc.
    destruct lines as [|l' lines]; [now rewrite append_nil_r | reflexivity].
Qed.

Lemma length_append (a b : string) :
  String.length (a ++ b) = (String.length a + String.length b)%nat.
Proof.
  induction a as [|x a IH]; simpl; [reflexivity | now rewrite IH].
Qed.

Lemma length_lower (s : string) : String.length (lower s) = String.length s.
Proof.
  induction s as [|c s IH]; simpl; [reflexivity | now rewrite IH].
Qed.

Lemma substring_lower (n m : nat) (s : string) :
  substring n m (lower s) = lower (substring n m s).
Proof.
  revert n m. induction s as [|c s IH]; intros [|n] [|m]; simpl;
    try reflexivity; now rewrite IH.
Qed.

Lemma substring_0_length (s : string) : substring 0 (String.length s) s = s.
Proof.
  induction s as [|c s IH]; simpl; [reflexivity | now rewrite IH].
Qed.

Lemma substring_skip_append (a b : string) (m : nat) :
  substring (String.length a) m (a ++ b) = substring 0 m b.
Proof.
  induction a as [|x a IH]; simpl; [reflexivity | exact IH].
Qed.

(** A string is what stands before a position and what stands after. *)
Lemma substring_split (k : nat) (s : string) :
  (k <= String.length s)%nat ->
  s = substring 0 k s ++ substring k (String.length s - k) s.
Proof.
  revert k. induction s as [|c s IH]; intros [|k] H; simpl in *.
  - reflexivity.
  - lia.
  - now rewrite substring_0_length.
  - f_equal. apply IH. lia.
Qed.

Lemma endswith_iff (s p : string) :
  endswith s p = true <-> exists stem, s = stem ++ p.
Proof.
  unfold endswith. rewrite andb_true_iff, Nat.leb_le, String.eqb_eq. split.
  - intros [Hle Hsub].
    exists (substring 0 (String.length s - String.length p) s).
    rewrite (substring_split (String.length s - String.length p) s) at 1 by lia.
    f_equal. rewrite <- Hsub at 3. f_equal. lia.
  - intros [stem ->]. rewrite length_append. split; [lia|].
    replace (String.length stem + String.length p - String.length p)%nat
      with (String.length stem) by lia.
    rewrite substring_skip_append. apply substring_0_length.
Qed.

(** The suffix test of the scripts on the lowered name is the suffix test
    that ignores case. *)
Lemma endswith_lower_iff (name word : string) :
  endswith (lower name) word = true <-> ends_with_nocase name word.
Proof.
  unfold ends_with_nocase. split.
  - unfold endswith. rewrite andb_true_iff, Nat.leb_le, String.eqb_eq, length_lower.
    intros [Hle Hsub].
    exists (substring 0 (String.length name - String.length word) name),
           (substring (String.length name - String.length word) (String.length word) name).
    split.
    + rewrite (substring_split (String.length name - String.length word) name) at 1 by lia.
      do 2 f_equal. lia.
    + now rewrite <- substring_lower.
  - intros (stem & e & -> & <-). rewrite lower_app.
    apply endswith_iff. now exists (lower stem).
Qed.

Lemma filter_filter {A} (p : A -> bool) (l : list A) :
  filter p (filter p l) = filter p l.
Proof.
  induction l as [|x l IH]; simpl; [reflexivity|].
  destruct (p x) eqn:E; simpl; [now rewrite E, IH | exact IH].
Qed.

End PyFacts.

(* ================================================================= *)
(** ** The embedded run-time on known inputs *)

Section RuntimeExamples.

Import PyStr PyFloat PyList.

Example str_methods :
  lower "PASSPORT_Scan.PNG" = "passport_scan.png"
  /\ PyStr.strip (" " ++ nl ++ "[1, 2] " ++ nl) = "[1, 2]"
  /\ splitlines ("a" ++ nl ++ "b" ++ String CR nl ++ nl ++ "c" ++ nl) = ["a"; "b"; ""; "c"]
  /\ splitlines "" = []
  /\ endswith "scan.jpeg" "jpeg" = true
  /\ endswith "peg" "jpeg" = false
  /\ startswith "license_01.jpg" "license" = true
  /\ filter_chars isdigit "P-12 34A5678B90" = "1234567890".
Proof.
  repeat split; vm_compute; reflexivity.
Qed.

Example float_formats :
  format_2f 0.125 = "0.12"
  /\ format_2f 0.375 = "0.38"
  /\ format_2f 1234.5 = "1234.50"
  /\ format_2f (PrimFloat.div 200 3) = "66.67"
  /\ format_2f (PrimFloat.opp 2.5) = "-2.50"
  /\ py_int 3999.5 = Ok 3999
  /\ py_int (PrimFloat.opp 2.75) = Ok (-2)
  /\ py_int (PrimFloat.div 0 0) = Raise (ValueError "cannot convert float NaN to integer").
Proof.
  repeat split; vm_compute; reflexivity.
Qed.

Example slices_and_sort :
  slice (Some 1) (Some (-1)) ["```json"; "["; "]"; "```"] = ["["; "]"]
  /\ slice (Some 1) (Some (-1)) ["```"] = []
  /\ slice_str None (Some 9) "1234567890" = "123456789"
  /\ slice_str None (Some 9) "1234" = "1234"
  /\ sort ["b.jpg"; "a.png"; "B.jpg"] = ["B.jpg"; "a.png"; "b.jpg"].
Proof.
  repeat split; vm_compute; reflexivity.
Qed.

(** The example of the specification for the names of the outputs. *)
Example normalize_filename_example :
  Preprocess.normalize_filename "My File-Name.PNG" = "my_file_name"
  /\ Preprocess.normalize_filename "passport  --  scan.v2.jpg" = "passport_scan.v2"
  /\ Preprocess.normalize_filename ".hidden" = ".hidden".
Proof.
  repeat split; vm_compute; reflexivity.
Qed.

End RuntimeExamples.

(* ================================================================= *)
(** ** Binary64: the integer part of a quotient

    [int(a / b)] goes through a rounded quotient.  The facts below follow
    the rounding of the division step by step, on the specification of
    binary64 that the primitive floats obey, up to the integer that
    [int] takes from the result. *)

Section Binary64Facts.

Import PyFloat.








Lemma round_nearest_even_exact (m : Z) : round_nearest_even m loc_Exact = m.
Proof. reflexivity. Qed.













End Binary64Facts.

(* ================================================================= *)
(** ** The Preprocessor *)

Section PreprocessFacts.

Import PyStr PyFloat PyList Preprocess Notions.


Lemma pixel_bin_image (gray : gray_image) (t : Z) (i j : nat) :
  pixel (bin_image gray t) i j =
  option_map (threshold_binary_pixel t 255) (pixel gray i j).
Proof.
  unfold pixel, bin_image, threshold_THRESH_BINARY. simpl.
  rewrite nth_error_map.
  destruct (nth_error gray i) as [row|]; simpl; [|reflexivity].
  apply nth_error_map.
Qed.

(** C1 (as the code has it): the binarization of the Preprocessor maps
    every pixel whose value is strictly above the threshold [t] to 255 and
    every pixel whose value is at most [t] to 0; a pixel equal to the
    threshold becomes 0. *)
Theorem binarization_is_strict (gray : gray_image) (t : Z) (i j : nat) (p : Z) :
  pixel gray i j = Some p ->
  (t < p -> pixel (bin_image gray t) i j = Some 255) /\
  (p <= t -> pixel (bin_image gray t) i j = Some 0) /\
  (p = t -> pixel (bin_image gray t) i j = Some 0).
Proof.
  intros Hp. rewrite pixel_bin_image, Hp. simpl.
  unfold threshold_binary_pixel.
  destruct (Z.gtb_spec p t); repeat split; intros; try reflexivity; lia.
Qed.

Lemma binarization_is_strict_witness :
  pixel (bin_image [[100; 101]] 100) 0 1 = Some 255 /\
  pixel (bin_image [[100; 101]] 100) 0 0 = Some 0.
Proof.
  split.
  - apply (proj1 (binarization_is_strict [[100; 101]] 100 0 1 101 eq_refl)). lia.
  - apply (proj1 (proj2 (binarization_is_strict [[100; 101]] 100 0 0 100 eq_refl))). lia.
Defined.

(** C1 as the specification states it fails: the image of one pixel of
    intensity 100 has the threshold 100 at offset 0, and its pixel turns
    black, not white. *)
Lemma binarization_at_threshold_is_not_white :
  ~ (forall (gray : gray_image) (off t : Z) (i j : nat) (p : Z),
        threshold_val gray off = Ok t ->
        pixel gray i j = Some p ->
        pixel (bin_image gray t) i j = Some (if p >=? t then 255 else 0)).
Proof.
  intros H.
  assert (Ht : threshold_val [[100]] 0 = Ok 100) by (vm_compute; reflexivity).
  specialize (H [[100]] 0 100 0%nat 0%nat 100 Ht eq_refl).
  discriminate H.
Qed.



Lemma pixel_count_is_number_of_pixels (gray : gray_image) :
  pixel_count gray = number_of_pixels gray.
Proof.
  unfold pixel_count, number_of_pixels.
  induction gray as [|row gray IH]; [reflexivity|].
  cbn [List.concat fold_right]. rewrite <- IH, length_app, Nat2Z.inj_add.
  reflexivity.
Qed.




(** An array without pixels has the mean [nan], which [int] refuses. *)
Lemma threshold_val_without_pixels (gray : gray_image) (off : Z) :
  number_of_pixels gray = 0 ->
  threshold_val gray off = Raise (ValueError "cannot convert float NaN to integer").
Proof.
  intros Hn. pose proof (pixel_count_is_number_of_pixels gray) as Hc.
  rewrite Hn in Hc. unfold threshold_val, mean. rewrite Hc.
  unfold pixel_sum. unfold pixel_count in Hc.
  destruct (List.concat gray) as [|p l]; [reflexivity | discriminate Hc].
Qed.



(** The offset of a name is the offset of the name in lower case. *)
Lemma offset_ignores_case (image_file : string) :
  offset (lower image_file) = offset image_file.
Proof.
  unfold offset. now rewrite lower_idempotent.
Qed.

(** The threshold of the examples of the specification: a mean of
    100.75 is truncated to 100; the bounds 0 and 255 are reached. *)
Example threshold_examples :
  threshold_val [[100; 101]; [101; 101]] (offset "selfie.jpg") = Ok 100 /\
  threshold_val [[100; 101]; [101; 101]] (offset "license_01.jpg") = Ok 80 /\
  threshold_val [[10; 12]] (offset "PASSPORT_scan.png") = Ok 0 /\
  threshold_val [[255]] (-5) = Ok 255.
Proof.
  repeat split; vm_compute; reflexivity.
Qed.

Context {ext : Extern}.

(** The steps of [preprocess_image] for an image that can be decoded:
    the returned image is the binarization of the grayscale of the
    resized image at the threshold of step 4. *)
Lemma preprocess_image_steps (image_path : string) (off : Z) (img resized : image) (t : Z) :
  imread image_path = Some img ->
  resize_image img 4000 = Ok resized ->
  threshold_val (cvtColor_BGR2GRAY resized) off = Ok t ->
  preprocess_image image_path off =
  Ok (bin_image (cvtColor_BGR2GRAY resized) t,
      let '(success, buffer_len) :=
        imencode_jpg90 (bin_image (cvtColor_BGR2GRAY resized) t) in
      if success then buffer_len else 0).
Proof.
  intros Hread Hresize Ht. unfold preprocess_image.
  rewrite Hread, Hresize. cbn [Py.bind]. rewrite Ht. cbn [Py.bind].
  unfold bin_image, threshold_THRESH_BINARY. cbn [snd].
  now destruct (imencode_jpg90 _).
Qed.

(** The first half of C6: an image that is at most 4000 pixels wide is
    returned as it is. *)
Lemma resize_image_narrow (img : image) :
  snd (shape img) <= 4000 -> resize_image img 4000 = Ok img.
Proof.
  intros H. unfold resize_image. destruct (shape img) as [h w]. simpl in H.
  destruct (Z.gtb_spec w 4000); [lia | reflexivity].
Qed.

(** C6 at an image that is 4210 pixels wide and high: the product
    [4210 * (4000 / 4210)] is just below 4000 in binary64, and [int]
    truncates it, so that the script asks OpenCV for 3999 by 3999 pixels
    where the claim says 4000 by 4000. *)
Theorem resize_image_4210_asks_for_3999 (img : image) :
  shape img = (4210, 4210) ->
  resize_image img 4000 = resize_INTER_AREA img (3999, 3999).
Proof.
  intros H. unfold resize_image. rewrite H.
  change (4210 >? 4000) with true. cbv iota.
  assert (R : truediv_int 4000 4210 = Ok 0x1.e675f77ca7d43p-1%float)
    by (vm_compute; reflexivity).
  rewrite R. cbn [Py.bind].
  assert (W : py_int (PrimFloat.mul (of_int 4210) 0x1.e675f77ca7d43p-1%float) = Ok 3999)
    by (vm_compute; reflexivity).
  rewrite W. reflexivity.
Qed.

End PreprocessFacts.

Lemma resize_image_4210_asks_for_3999_witness :
  Preprocess.resize_image (ext := Sample.cv) ((4210, 4210), 7) 4000
  = Ok ((3999, 3999), 7).
Proof.
  rewrite (resize_image_4210_asks_for_3999 (ext := Sample.cv) ((4210, 4210), 7) eq_refl).
  reflexivity.
Defined.

Section PreprocessMain.

Import PyStr PyFloat PyList Preprocess.

Context {ext : Extern}.

(** When every image can be processed, the loop ends with the counters
    raised by the sums of the sizes. *)
Lemma process_images_totals (files : list string) :
  (forall f, In f files ->
     is_ok (preprocess_image (path_join images_folder f) (offset f)) = true) ->
  forall log acc,
    snd (process_images files log acc) =
    Ok {| combined_original_size :=
            combined_original_size acc + sum_Z (map original_size files);
          combined_final_size :=
            combined_final_size acc + sum_Z (map final_size files);
          total_images_processed :=
            total_images_processed acc + Z.of_nat (List.length files) |}.
Proof.
  induction files as [|f files IH]; intros Hok log acc.
  - simpl. destruct acc; simpl. now rewrite !Z.add_0_r.
  - cbn [process_images].
    assert (Hf := Hok f (or_introl eq_refl)).
    assert (Hn : forall processed n,
               preprocess_image (path_join images_folder f) (offset f) = Ok (processed, n) ->
               final_size f = n)
      by (intros processed n E; unfold final_size; now rewrite E).
    destruct (preprocess_image (path_join images_folder f) (offset f))
      as [[processed n]|e]; [|discriminate Hf].
    specialize (Hn processed n eq_refl).
    rewrite IH by (intros g Hg; apply Hok; now right).
    cbn [combined_original_size combined_final_size total_images_processed map].
    change (List.length (f :: files)) with (S (List.length files)).
    change (getsize (path_join images_folder f)) with (original_size f).
    change (sum_Z (original_size f :: map original_size files))
      with (original_size f + sum_Z (map original_size files)).
    change (sum_Z (final_size f :: map final_size files))
      with (final_size f + sum_Z (map final_size files)).
    rewrite Hn.
    f_equal. f_equal; lia.
Qed.

Lemma summarize_formula (t : totals) :
  0 <= combined_original_size t ->
  summarize t =
  Ok {| images_processed := total_images_processed t;
        original_bytes := combined_original_size t;
        final_bytes := combined_final_size t;
        size_reduced := combined_original_size t - combined_final_size t;
        size_reduced_pct :=
          reduced_pct (combined_final_size t) (combined_original_size t) |}.
Proof.
  intros H. unfold summarize, reduced_pct, truediv_int.
  destruct (Z.gtb_spec (combined_original_size t) 0) as [Hpos|Hle].
  - destruct (Z.eqb_spec (combined_original_size t) 0); [lia | reflexivity].
  - destruct (Z.eqb_spec (combined_original_size t) 0); [reflexivity | lia].
Qed.

Lemma sum_Z_nonneg (l : list Z) : (forall x, In x l -> 0 <= x) -> 0 <= sum_Z l.
Proof.
  induction l as [|x l IH]; simpl; intros H; [lia|].
  assert (0 <= x) by (apply H; now left).
  assert (0 <= sum_Z l) by (apply IH; intros y Hy; apply H; now right).
  unfold sum_Z in *. lia.
Qed.

(** C4 (with the figure of the example put right): for a batch whose
    images are all processed, the summary holds the sums of the original
    and of the final sizes, their difference, and the percentage
    [100 * (1 - final / original)], or 0 when the original total is 0; for
    the original sizes 1000 and 2000 and the final sizes 400 and 600 the
    reduction is 2000 bytes and the percentage is printed as 66.67%. *)
Theorem size_reduction_summary (listdir : list string) :
  let files := sort (filter is_selected listdir) in
  let original := sum_Z (map original_size files) in
  let final := sum_Z (map final_size files) in
  files <> [] ->
  (forall f, In f files ->
     is_ok (preprocess_image (path_join images_folder f) (offset f)) = true) ->
  (forall f, In f files -> 0 <= original_size f) ->
  snd (main listdir) =
    Ok {| images_processed := Z.of_nat (List.length files);
          original_bytes := original;
          final_bytes := final;
          size_reduced := original - final;
          size_reduced_pct := reduced_pct final original |}
  /\ sum_Z [1000; 2000] - sum_Z [400; 600] = 2000
  /\ format_2f (reduced_pct (sum_Z [400; 600]) (sum_Z [1000; 2000])) ++ "%" = "66.67%".
Proof.
  intros files original final Hne Hok Hsize.
  split; [|split; vm_compute; reflexivity].
  unfold main.
  destruct (filter is_selected listdir) as [|f0 fs] eqn:Hsel.
  - now elim Hne.
  - fold files.
    pose proof (process_images_totals files Hok []
                  {| combined_original_size := 0;
                     combined_final_size := 0;
                     total_images_processed := 0 |}) as Hloop.
    destruct (process_images files [] _) as [log r]. simpl in Hloop. subst r.
    cbn [snd Py.bind].
    rewrite summarize_formula; cbn [combined_original_size combined_final_size
                                    total_images_processed].
    + reflexivity.
    + apply sum_Z_nonneg. intros x Hx. apply in_map_iff in Hx.
      destruct Hx as (f & <- & Hf). now apply Hsize.
Qed.

End PreprocessMain.

Lemma size_reduction_summary_witness :
  snd (Preprocess.main (ext := Sample.cv) ["b.png"; "notes.txt"; "a.png"]) =
  Ok {| Preprocess.images_processed := 2;
        Preprocess.original_bytes := 3000;
        Preprocess.final_bytes := 1000;
        Preprocess.size_reduced := 2000;
        Preprocess.size_reduced_pct :=
          Preprocess.reduced_pct 1000 3000 |}.
Proof.
  refine (proj1 (size_reduction_summary (ext := Sample.cv)
                   ["b.png"; "notes.txt"; "a.png"] _ _ _)).
  - discriminate.
  - intros f [<-|[<-|[]]]; vm_compute; reflexivity.
  - intros f [<-|[<-|[]]]; vm_compute; discriminate.
Defined.

(** C4 as the specification states it fails at its own example: for the
    original sizes 1000 and 2000 and the final sizes 400 and 600 the
    script prints 66.67%, not 33.33%. *)
Lemma size_reduction_example_is_not_33_33 :
  ~ (forall s : Preprocess.summary,
       Preprocess.summarize
         {| Preprocess.combined_original_size := Preprocess.sum_Z [1000; 2000];
            Preprocess.combined_final_size := Preprocess.sum_Z [400; 600];
            Preprocess.total_images_processed := 2 |} = Ok s ->
       Preprocess.size_reduced s = 2000 /\
       Preprocess.size_reduced_pct_text s = "33.33%").
Proof.
  intros H.
  destruct (H _ eq_refl) as [_ Hpct].
  vm_compute in Hpct. discriminate Hpct.
Qed.

(* ================================================================= *)
(** ** The Extractor: the request *)

Section ExtractRequest.

Import PyStr PyFloat PyList PyJson Extract.

Context {ext : Extern}.

(** The loop appends the blocks of the images in the order of its
    argument, and opens their files in that order. *)
Lemma append_images_spec (files : list string) :
  forall (acc : list json) (w : world),
    append_images files acc w =
    (Ok (acc ++ flat_map image_blocks files)%list,
     {| stdout := stdout w; results := results w;
        opened := (rev (map image_path files) ++ opened w)%list;
        globals := globals w |}).
Proof.
  induction files as [|f files IH]; intros acc [so re op gl].
  - cbn. now rewrite app_nil_r.
  - cbn [append_images]. unfold seq, read_file.
    rewrite IH. cbn [stdout results opened globals flat_map map rev].
    rewrite <- !app_assoc. reflexivity.
Qed.

Lemma batch_content_spec (files : list string) (w : world) :
  batch_content files w =
  (Ok (text_block instructions_text :: flat_map image_blocks files),
   {| stdout := stdout w; results := results w;
      opened := (rev (map image_path files) ++ opened w)%list;
      globals := globals w |}).
Proof.
  unfold batch_content. now rewrite append_images_spec.
Qed.

(** *** Statements that open no file *)

Lemma keeps_ret {A} (a : A) : keeps_opened (ret a).
Proof. now intros w. Qed.

Lemma keeps_raise {A} (e : exn) : keeps_opened (@raise A e).
Proof. now intros w. Qed.

Lemma keeps_lift {A} (r : result A) : keeps_opened (lift r).
Proof. now intros w. Qed.

Lemma keeps_print (s : string) : keeps_opened (print s).
Proof. now intros w. Qed.

Lemma keeps_open_results : keeps_opened open_results.
Proof. now intros w. Qed.

Lemma keeps_results_write (s : string) : keeps_opened (results_write s).
Proof. now intros w. Qed.

Lemma keeps_store_name (name : string) (v : json) : keeps_opened (store_name name v).
Proof. now intros w. Qed.

Lemma keeps_load_name (name : string) : keeps_opened (load_name name).
Proof.
  intros w. unfold load_name. now destruct (dict_lookup (globals w) name).
Qed.

Lemma keeps_seq {A B} (m : M A) (k : A -> M B) :
  keeps_opened m -> (forall a, keeps_opened (k a)) -> keeps_opened (seq m k).
Proof.
  intros Hm Hk w. unfold seq. specialize (Hm w).
  destruct (m w) as [[a|e] w']; simpl in *.
  - now rewrite Hk.
  - exact Hm.
Qed.

Lemma keeps_try {A} (body handler : M A) :
  keeps_opened body -> keeps_opened handler ->
  keeps_opened (try_except_JSONDecodeError body handler).
Proof.
  intros Hb Hh w. unfold try_except_JSONDecodeError. specialize (Hb w).
  destruct (body w) as [[a|e] w']; simpl in *; [exact Hb|].
  destruct e; simpl; try exact Hb. now rewrite Hh.
Qed.

Create HintDb keeps.

#[local] Hint Resolve keeps_ret keeps_raise keeps_lift keeps_print
  keeps_open_results keeps_results_write keeps_store_name keeps_load_name : keeps.

Ltac keeps_step :=
  match goal with
  | |- keeps_opened (seq _ _) => apply keeps_seq; [|intros]
  | |- keeps_opened (try_except_JSONDecodeError _ _) => apply keeps_try
  | |- keeps_opened (if ?b then _ else _) => destruct b
  | |- keeps_opened (match ?x with _ => _ end) => destruct x
  | |- keeps_opened _ => solve [auto with keeps]
  end.

Lemma keeps_write_records (items : list json) : keeps_opened (write_records items).
Proof.
  induction items as [|item items IH]; cbn [write_records]; repeat keeps_step.
Qed.

Lemma keeps_parse_and_write (s : string) : keeps_opened (parse_and_write s).
Proof.
  unfold parse_and_write. repeat keeps_step. apply keeps_write_records.
Qed.

Lemma keeps_zero_counters : keeps_opened zero_counters.
Proof. unfold zero_counters. repeat keeps_step. Qed.

Lemma keeps_after_response (r : response) (n : Z) : keeps_opened (after_response r n).
Proof.
  unfold after_response, handle_response, on_status_200, on_other_status,
    write_statistics, report, results_write_value.
  repeat keeps_step;
    first [apply keeps_parse_and_write | apply keeps_zero_counters].
Qed.

Lemma keeps_credentials : keeps_opened credentials.
Proof. unfold credentials. repeat keeps_step. Qed.

(** A run opens the files of the selected names and no other. *)
Lemma script_opened (listdir : list string) (w : world) :
  opened (snd (script listdir w)) = opened w \/
  opened (snd (script listdir w)) =
    (rev (map image_path (image_files listdir)) ++ opened w)%list.
Proof.
  destruct (script listdir w) as [res wf] eqn:E. cbn [snd].
  unfold script in E. unfold seq at 1 in E.
  pose proof (keeps_credentials w) as Hc.
  destruct (credentials w) as [[[api_key endpoint]|e] w1]; simpl in Hc.
  2:{ injection E as _ <-. now left. }
  destruct (image_files listdir) as [|f files] eqn:F.
  - unfold raise in E. injection E as _ <-. now left.
  - right. unfold seq at 1 in E. rewrite batch_content_spec in E.
    unfold seq at 1, lift in E.
    destruct (requests_post _ _ _) as [r|e].
    + match type of E with
      | after_response ?r ?n ?w2 = _ =>
          pose proof (keeps_after_response r n w2) as K
      end.
      rewrite E in K. cbn [snd opened] in K. now rewrite K, Hc.
    + injection E as _ <-. cbn [opened]. now rewrite Hc.
Qed.

End ExtractRequest.

(* ================================================================= *)
(** ** The selection of the input files *)

Section FileSelection.

Import PyStr PyList.

Context {cv : Preprocess.Extern} {http : Extract.Extern}.

Lemma is_selected_iff (f : string) :
  Preprocess.is_selected f = true <->
  ends_with_nocase f "png" \/ ends_with_nocase f "jpg" \/ ends_with_nocase f "jpeg".
Proof.
  unfold Preprocess.is_selected, endswith_any. cbn [existsb].
  rewrite !orb_true_iff, !endswith_lower_iff. intuition discriminate.
Qed.

(** The loop of [main] touches the files of its list only. *)
Lemma process_images_log (files : list string) :
  forall log acc a,
    In a (fst (Preprocess.process_images files log acc)) ->
    In a log \/
    exists f, In f files /\
      (a = Preprocess.Getsize (Preprocess.path_join Preprocess.images_folder f) \/
       a = Preprocess.Imread (Preprocess.path_join Preprocess.images_folder f) \/
       exists out, a = Preprocess.Imwrite out).
Proof.
  induction files as [|f files IH]; intros log acc a H.
  - now left.
  - cbn [Preprocess.process_images] in H.
    destruct (Preprocess.preprocess_image _ _) as [[processed n]|e].
    + apply IH in H. destruct H as [H|(g & Hg & H)].
      * destruct H as [<-|[<-|[<-|H]]].
        -- right. exists f. split; [now left|]. right. right. eauto.
        -- right. exists f. split; [now left|]. auto.
        -- right. exists f. split; [now left|]. auto.
        -- now left.
      * right. exists g. split; [now right | exact H].
    + cbn [fst] in H. destruct H as [<-|[<-|H]].
      * right. exists f. split; [now left|]. auto.
      * right. exists f. split; [now left|]. auto.
      * now left.
Qed.

Lemma main_log (listdir : list string) (a : Preprocess.access) :
  In a (fst (Preprocess.main listdir)) ->
  exists f, In f listdir /\ Preprocess.is_selected f = true /\
    (a = Preprocess.Getsize (Preprocess.path_join Preprocess.images_folder f) \/
     a = Preprocess.Imread (Preprocess.path_join Preprocess.images_folder f) \/
     exists out, a = Preprocess.Imwrite out).
Proof.
  unfold Preprocess.main.
  destruct (filter Preprocess.is_selected listdir) as [|f0 fs] eqn:Hsel.
  - intros [].
  - match goal with
    | |- context [Preprocess.process_images ?l ?g ?t] =>
        pose proof (process_images_log l g t a) as L;
        destruct (Preprocess.process_images l g t) as [log r]
    end.
    cbn [fst] in *. intros H.
    destruct (L H) as [[]|(f & Hf & Ha)].
    rewrite In_sort in Hf. rewrite <- Hsel in Hf. apply filter_In in Hf.
    exists f. intuition.
Qed.

(** C10: both scripts keep a name exactly when it ends with "png", "jpg"
    or "jpeg", whatever the case of the letters and with or without a dot
    before them, so that "scanpng" is kept; a name that ends otherwise is
    ignored: the Preprocessor neither measures nor decodes its file, the
    Extractor does not open it, and both run as if the name were not in
    the folder. *)
Theorem only_suffix_selected_files_are_read (listdir : list string) :
  (forall f, Preprocess.is_selected f = true <->
             ends_with_nocase f "png" \/ ends_with_nocase f "jpg" \/
             ends_with_nocase f "jpeg")
  /\ (forall f, Extract.is_selected f = Preprocess.is_selected f)
  /\ Preprocess.is_selected "scanpng" = true
  /\ (forall path,
        In (Preprocess.Getsize path) (fst (Preprocess.main listdir)) \/
        In (Preprocess.Imread path) (fst (Preprocess.main listdir)) ->
        exists f, In f listdir /\ Preprocess.is_selected f = true /\
                  path = Preprocess.path_join Preprocess.images_folder f)
  /\ (forall path,
        In path (Extract.opened (snd (Extract.run listdir))) ->
        exists f, In f listdir /\ Extract.is_selected f = true /\
                  path = Extract.image_path f)
  /\ Preprocess.main listdir = Preprocess.main (filter Preprocess.is_selected listdir)
  /\ Extract.run listdir = Extract.run (filter Extract.is_selected listdir).
Proof.
  repeat apply conj.
  - apply is_selected_iff.
  - reflexivity.
  - reflexivity.
  - intros path [H|H]; apply main_log in H;
      destruct H as (f & Hf & Hs & [H|[H|[out H]]]); try discriminate H;
      injection H as ->; eauto.
  - intros path H. unfold Extract.run in H.
    destruct (script_opened listdir Extract.initial_world) as [E|E];
      rewrite E in H; cbn [Extract.opened Extract.initial_world] in H.
    + destruct H.
    + rewrite app_nil_r in H. apply in_rev in H. apply in_map_iff in H.
      destruct H as (f & <- & Hf). apply filter_In in Hf. exists f. intuition.
  - unfold Preprocess.main. now rewrite filter_filter.
  - unfold Extract.run, Extract.script, Extract.image_files. now rewrite filter_filter.
Qed.

End FileSelection.

Lemma only_suffix_selected_files_are_read_witness :
  (exists f, In f ["b.PNG"; "notes.txt"; "a.png"] /\
             Preprocess.is_selected f = true /\ "images/a.png" = "images/" ++ f)
  /\ (exists f, In f ["b.PNG"; "notes.txt"; "a.png"] /\
                Extract.is_selected f = true /\
                "preprocessed_images/b.PNG" = "preprocessed_images/" ++ f).
Proof.
  pose proof (only_suffix_selected_files_are_read
                (cv := Sample.cv) (http := Sample.http Sample.server_error)
                ["b.PNG"; "notes.txt"; "a.png"]) as (_ & _ & _ & Hread & Hopen & _).
  split.
  - apply (Hread "images/a.png"). right. vm_compute. tauto.
  - apply (Hopen "preprocessed_images/b.PNG"). vm_compute. tauto.
Defined.

(** C2 at a folder that the platform lists as b.jpg, notes.txt, a.jpg:
    the content starts with the one instruction block and has an image
    block and a caption per image, but the images come in the order of
    the listing, b.jpg before a.jpg, which is not the sorted order. *)
Theorem batch_content_follows_listing_order :
  fst (Extract.batch_content (ext := Sample.http Sample.server_error)
         (Extract.image_files ["b.jpg"; "notes.txt"; "a.jpg"])
         Extract.initial_world)
  = Ok [Extract.text_block Extract.instructions_text;
        Extract.image_block "b64(preprocessed_images/b.jpg)";
        Extract.text_block (Extract.caption "b.jpg");
        Extract.image_block "b64(preprocessed_images/a.jpg)";
        Extract.text_block (Extract.caption "a.jpg")]
  /\ Extract.image_files ["b.jpg"; "notes.txt"; "a.jpg"] = ["b.jpg"; "a.jpg"]
  /\ PyList.sort (Extract.image_files ["b.jpg"; "notes.txt"; "a.jpg"]) = ["a.jpg"; "b.jpg"].
Proof.
  repeat split; vm_compute; reflexivity.
Qed.

(* ================================================================= *)
(** ** The Extractor: the reply *)

Section ExtractReply.

Import PyStr PyFloat PyList PyJson Extract.

Lemma firstn_substring (n : nat) (s : string) :
  string_of_list_ascii (firstn n (list_ascii_of_string s)) = substring 0 n s.
Proof.
  revert n. induction s as [|c s IH]; intros [|n]; simpl; try reflexivity.
  now rewrite IH.
Qed.

Lemma slice_str_to_9 (s : string) : slice_str None (Some 9) s = substring 0 9 s.
Proof.
  unfold slice_str. rewrite (slice_to 9). apply firstn_substring.
Qed.

Lemma substring_short (n : nat) (s : string) :
  (String.length s <= n)%nat -> substring 0 n s = s.
Proof.
  revert n. induction s as [|c s IH]; intros [|n] H; simpl in *;
    try reflexivity; try lia.
  f_equal. apply IH. lia.
Qed.

(** The generator of line 176 on a [str]: its digits, in order. *)
Lemma digits_of_str (raw : string) :
  digits_of (JStr raw) = Ok (filter_chars isdigit raw).
Proof.
  unfold digits_of, iter. cbn [Py.bind].
  induction raw as [|c raw IH]; [reflexivity|].
  cbn [list_ascii_of_string map join_digit_items filter_chars].
  rewrite IH. cbn [Py.bind all_digits list_ascii_of_string forallb].
  rewrite andb_true_r. now destruct (isdigit c).
Qed.



(** What the loop of lines 172-180 writes for an item is the dump of
    the item as [post_process] leaves it, followed by an empty line. *)
Lemma write_records_emits {ext : Extern} (item item' : json) (rest : list json)
  (so re : string) (op : list string) (gl : dict) :
  post_process item = Ok item' ->
  write_records (item :: rest)
    {| stdout := so; results := Some re; opened := op; globals := gl |} =
  (rest' <- write_records rest ;; ret (item' :: rest'))
    {| stdout := so; results := Some (re ++ json_dumps_indent4 item' ++ nl ++ nl);
       opened := op; globals := gl |}.
Proof.
  intros Hitem. cbn [write_records]. unfold seq at 1. unfold lift. rewrite Hitem.
  unfold seq at 1. reflexivity.
Qed.

(** *** Lines and fences *)

(** A first line without line boundary, closed by a line feed. *)
Lemma splitlines_first_line (l rest : string) :
  no_linebreak l ->
  forall cur,
    splitlines_from false cur (l ++ String LF rest) =
    string_of_list_ascii (rev cur ++ list_ascii_of_string l)
      :: splitlines_from false [] rest.
Proof.
  unfold no_linebreak.
  induction l as [|c l IH]; intros H cur.
  - cbn. now rewrite app_nil_r.
  - cbn [list_ascii_of_string forallb] in H. apply andb_true_iff in H.
    destruct H as [Hc Hl]. apply negb_true_iff in Hc.
    cbn [append splitlines_from andb]. rewrite Hc.
    rewrite (IH Hl). cbn [rev list_ascii_of_string].
    now rewrite <- app_assoc.
Qed.

(** What follows a line feed is split on its own. *)
Lemma splitlines_after_line_feed (t u : string) :
  forall after_cr cur,
    (after_cr = true -> cur = []) ->
    splitlines_from after_cr cur (t ++ String LF u) =
    (splitlines_from after_cr cur (t ++ String LF EmptyString)
       ++ splitlines_from false [] u)%list.
Proof.
  induction t as [|c t IH]; intros after_cr cur Hinv.
  - cbn [append splitlines_from].
    destruct after_cr.
    + rewrite (Hinv eq_refl). reflexivity.
    + reflexivity.
  - cbn [append splitlines_from].
    destruct (after_cr && Ascii.eqb c LF).
    + apply IH. discriminate.
    + destruct (is_linebreak c).
      * cbn [app]. f_equal. now apply IH.
      * apply IH. discriminate.
Qed.

Lemma rstrip_keeps_nonspace_end (x : string) (c : ascii) :
  isspace c = false ->
  rstrip (x ++ String c EmptyString) = x ++ String c EmptyString.
Proof.
  intros Hc. induction x as [|a x IH]; cbn [append rstrip].
  - now rewrite Hc.
  - rewrite IH. now destruct x.
Qed.

(** A reply that is a fence line, a body and a closing fence: what is
    parsed is the lines of the body, joined again and stripped. *)
Lemma content_str_of_fenced_reply (lang body : string) :
  no_linebreak lang ->
  content_str (JStr (fence ++ lang ++ nl ++ body ++ nl ++ fence)) =
  Ok (PyStr.strip (join nl (splitlines (body ++ nl)))).
Proof.
  intros Hlang.
  set (reply := fence ++ lang ++ nl ++ body ++ nl ++ fence).
  assert (Hform : reply = (fence ++ lang ++ nl ++ body ++ nl ++ "``")
                          ++ String "`" EmptyString)
    by (unfold reply, fence; now rewrite !append_assoc).
  assert (Hstrip : PyStr.strip reply = reply).
  { unfold PyStr.strip. change (lstrip reply) with reply.
    rewrite Hform. now apply rstrip_keeps_nonspace_end. }
  unfold content_str. cbn [PyJson.strip Py.bind]. rewrite Hstrip.
  unfold remove_fences.
  assert (Hstart : startswith reply fence = true) by apply prefix_app.
  assert (Hend : endswith reply fence = true).
  { apply endswith_iff. exists (fence ++ lang ++ nl ++ body ++ nl).
    unfold reply. now rewrite !append_assoc. }
  rewrite Hstart, Hend. cbn [andb]. rewrite slice_1_m1.
  do 3 f_equal.
  unfold splitlines, reply.
  replace (fence ++ lang ++ nl ++ body ++ nl ++ fence)
    with ((fence ++ lang) ++ String LF (body ++ String LF fence))
    by (now rewrite !append_assoc).
  rewrite splitlines_first_line.
  - cbn [tl]. rewrite splitlines_after_line_feed by discriminate.
    change (splitlines_from false [] fence) with [fence].
    now rewrite removelast_last.
  - unfold no_linebreak in *. cbn [fence append list_ascii_of_string forallb].
    exact Hlang.
Qed.

(** C8: when the stripped reply starts and ends with the fence marker,
    what is parsed is the reply without its first and its last line
    (joined again and stripped); when it has the marker at one end only,
    what is parsed is the stripped reply itself. *)
Theorem fences_removed_only_when_balanced (reply : string) :
  let s := PyStr.strip reply in
  (startswith s fence = true -> endswith s fence = true ->
     content_str (JStr reply) =
       Ok (PyStr.strip (join nl (removelast (tl (splitlines s))))))
  /\ (xorb (startswith s fence) (endswith s fence) = true ->
      content_str (JStr reply) = Ok s).
Proof.
  intros s. unfold content_str, remove_fences. cbn [Py.bind PyJson.strip].
  fold s. split.
  - intros -> ->. cbn [andb]. now rewrite slice_1_m1.
  - destruct (startswith s fence), (endswith s fence); cbn; intros H;
      try discriminate H; reflexivity.
Qed.

Lemma fences_removed_only_when_balanced_witness :
  content_str (JStr ("```json" ++ nl ++ "[{}]" ++ nl ++ "```" ++ nl)) = Ok "[{}]"
  /\ content_str (JStr (" ```json" ++ nl ++ "[{}]")) = Ok ("```json" ++ nl ++ "[{}]").
Proof.
  split.
  - exact (proj1 (fences_removed_only_when_balanced
                    ("```json" ++ nl ++ "[{}]" ++ nl ++ "```" ++ nl)) eq_refl eq_refl).
  - exact (proj2 (fences_removed_only_when_balanced
                    (" ```json" ++ nl ++ "[{}]")) eq_refl).
Defined.

End ExtractReply.

(* ================================================================= *)
(** ** The Extractor: a whole run *)

Section ExtractRun.

Import PyStr PyFloat PyList PyJson Extract.

Context {ext : Extern}.

(** *** Single statements on a world that is written out *)

Lemma results_write_spec (s so re : string) (op : list string) (gl : dict) :
  results_write s {| stdout := so; results := Some re; opened := op; globals := gl |} =
  (Ok tt, {| stdout := so; results := Some (re ++ s); opened := op; globals := gl |}).
Proof. reflexivity. Qed.

Lemma print_spec (s so : string) (re : option string) (op : list string) (gl : dict) :
  print s {| stdout := so; results := re; opened := op; globals := gl |} =
  (Ok tt, {| stdout := so ++ s ++ nl; results := re; opened := op; globals := gl |}).
Proof. reflexivity. Qed.

Lemma load_name_spec (name : string) (v : json) (so : string) (re : option string)
  (op : list string) (gl : dict) :
  dict_lookup gl name = Some v ->
  load_name name {| stdout := so; results := re; opened := op; globals := gl |} =
  (Ok v, {| stdout := so; results := re; opened := op; globals := gl |}).
Proof.
  intros H. unfold load_name. cbn [globals]. now rewrite H.
Qed.

Lemma store_name_spec (name : string) (v : json) (so : string) (re : option string)
  (op : list string) (gl : dict) :
  store_name name v {| stdout := so; results := re; opened := op; globals := gl |} =
  (Ok tt, {| stdout := so; results := re; opened := op; globals := dict_store gl name v |}).
Proof. reflexivity. Qed.

(** With the credentials set, an image in the folder and an endpoint that
    answers [r], the run reaches line 146 with nothing but the preamble
    printed, the images opened, and no name bound. *)
Lemma run_reaches_response (listdir : list string) (key endpoint : string) (r : response) :
  nonempty (getenv "FIREWORKS_API_KEY") = Some key ->
  nonempty (getenv "FIREWORKS_ENDPOINT") = Some endpoint ->
  image_files listdir <> [] ->
  (forall url hs body, requests_post url hs body = Ok r) ->
  run listdir =
  after_response r (Z.of_nat (List.length (image_files listdir)))
    {| stdout := preamble; results := None;
       opened := rev (map image_path (image_files listdir));
       globals := [] |}.
Proof.
  intros Hkey Hend Hfiles Hpost.
  unfold run, script. unfold seq at 1. unfold credentials, seq, print.
  rewrite Hkey, Hend. cbv beta iota. unfold ret.
  destruct (image_files listdir) as [|f files] eqn:F; [now elim Hfiles|].
  rewrite batch_content_spec. unfold lift. rewrite Hpost.
  cbn [stdout results opened globals initial_world].
  rewrite app_nil_r. reflexivity.
Qed.

Lemma after_response_other_status (r : response) (n : Z) (so : string)
  (re : option string) (op : list string) (gl : dict) :
  status_code r <> 200 ->
  dict_lookup gl "error_msg" = None ->
  after_response r n {| stdout := so; results := re; opened := op; globals := gl |} =
  (Raise (NameError "error_msg"),
   {| stdout := so ++ ("Error " ++ str_int (status_code r) ++ ": " ++ text r) ++ nl;
      results := Some ""; opened := op; globals := gl |}).
Proof.
  intros Hstatus Hname.
  unfold after_response, handle_response, seq, open_results.
  apply Z.eqb_neq in Hstatus. rewrite Hstatus.
  unfold on_other_status, seq, print, load_name.
  cbn [stdout results opened globals]. now rewrite Hname.
Qed.

(** C3 at every status other than 200: the run prints the status and the
    body of the response, and then stops at line 217 with [NameError],
    because [error_msg] is bound nowhere; the results file is left empty
    and the three counters are never bound, let alone reported as zero. *)
Theorem other_status_raises_NameError (listdir : list string) (key endpoint : string)
  (r : response) :
  nonempty (getenv "FIREWORKS_API_KEY") = Some key ->
  nonempty (getenv "FIREWORKS_ENDPOINT") = Some endpoint ->
  image_files listdir <> [] ->
  (forall url hs body, requests_post url hs body = Ok r) ->
  status_code r <> 200 ->
  run listdir =
  (Raise (NameError "error_msg"),
   {| stdout := preamble ++ ("Error " ++ str_int (status_code r) ++ ": " ++ text r) ++ nl;
      results := Some "";
      opened := rev (map image_path (image_files listdir));
      globals := [] |}).
Proof.
  intros Hkey Hend Hfiles Hpost Hstatus.
  rewrite (run_reaches_response listdir key endpoint r Hkey Hend Hfiles Hpost).
  now apply after_response_other_status.
Qed.

(** A reply that line 156 finds sits in a [dict] under a "choices" that
    is not empty. *)
Lemma message_content_ok (response_json v : json) :
  message_content response_json = Ok v ->
  exists choices,
    contains_key "choices" response_json = Ok true /\
    getitem_key response_json "choices" = Ok choices /\
    truthy choices = true.
Proof.
  unfold message_content. intros H.
  destruct response_json as [| | | | | |fields]; try discriminate H.
  cbn [getitem_key contains_key] in *.
  destruct (dict_lookup fields "choices") as [choices|]; [|discriminate H].
  exists choices. repeat split. cbn [Py.bind] in H.
  destruct choices as [| | | |s|items|d]; try discriminate H.
  - destruct s; [discriminate H | reflexivity].
  - destruct items; [discriminate H | reflexivity].
Qed.

Lemma parse_and_write_invalid (text : string) (so re : string) (op : list string)
  (gl : dict) :
  json_loads text = None ->
  parse_and_write text {| stdout := so; results := Some re; opened := op; globals := gl |} =
  (Ok tt,
   {| stdout := so ++ "The assistant response was not valid JSON even after removing code fences." ++ nl;
      results := Some (re ++ "The assistant response was not valid JSON." ++ nl);
      opened := op; globals := gl |}).
Proof.
  intros H.
  unfold parse_and_write, try_except_JSONDecodeError, seq, lift, loads.
  rewrite H. reflexivity.
Qed.

Lemma write_statistics_spec (n : Z) (d a : float) (p c t : json)
  (so re : string) (op : list string) (gl : dict) :
  write_statistics n d a p c t
    {| stdout := so; results := Some re; opened := op; globals := gl |} =
  (Ok tt,
   {| stdout := so; results := Some (re ++ statistics_text n d a p c t);
      opened := op; globals := gl |}).
Proof.
  unfold write_statistics, seq.
  repeat (rewrite results_write_spec; cbv beta iota).
  unfold statistics_text. rewrite <- append_all. reflexivity.
Qed.

Lemma report_spec (n : Z) (d a : float) (p c t : json)
  (so : string) (re : option string) (op : list string) (gl : dict) :
  dict_lookup gl "prompt_tokens" = Some p ->
  dict_lookup gl "completion_tokens" = Some c ->
  dict_lookup gl "total_tokens" = Some t ->
  report n d a
    {| stdout := so; results := re; opened := op; globals := gl |} =
  (Ok tt,
   {| stdout := so ++ report_text n d a p c t; results := re;
      opened := op; globals := gl |}).
Proof.
  intros Hp Hc Ht.
  unfold report, seq.
  repeat (rewrite print_spec; cbv beta iota).
  rewrite (load_name_spec _ _ _ _ _ _ Hp). cbv beta iota.
  rewrite print_spec. cbv beta iota.
  rewrite (load_name_spec _ _ _ _ _ _ Hc). cbv beta iota.
  rewrite print_spec. cbv beta iota.
  rewrite (load_name_spec _ _ _ _ _ _ Ht). cbv beta iota.
  rewrite print_spec.
  unfold report_text. rewrite <- append_all. reflexivity.
Qed.

(** X19: the sibling branch of lines 207-214 does what the branch of the
    other statuses set out to do: for a body of status 200 that is not
    JSON, the message goes to the results file and to the console, the
    three counters are bound to 0 and reported. *)
Lemma unparsable_body_zeroes_counters (listdir : list string) (key endpoint : string)
  (r : response) :
  nonempty (getenv "FIREWORKS_API_KEY") = Some key ->
  nonempty (getenv "FIREWORKS_ENDPOINT") = Some endpoint ->
  image_files listdir <> [] ->
  (forall url hs body, requests_post url hs body = Ok r) ->
  status_code r = 200 ->
  json_body r = None ->
  let n := Z.of_nat (List.length (image_files listdir)) in
  run listdir =
  (Ok tt,
   {| stdout :=
        (preamble ++ "Error: Unable to parse response as JSON." ++ nl)
        ++ report_text n duration_ms (average_ms_per_image n) (JInt 0) (JInt 0) (JInt 0);
      results := Some ("Error: Unable to parse response as JSON." ++ nl);
      opened := rev (map image_path (image_files listdir));
      globals := [("prompt_tokens", JInt 0); ("completion_tokens", JInt 0);
                  ("total_tokens", JInt 0)] |}).
Proof.
  intros Hkey Hend Hfiles Hpost Hstatus Hbody n.
  rewrite (run_reaches_response listdir key endpoint r Hkey Hend Hfiles Hpost).
  fold n. unfold after_response, handle_response.
  unfold seq at 1. unfold seq at 1. unfold open_results at 1.
  cbn [stdout results opened globals]. rewrite Hstatus. cbn [Z.eqb Pos.eqb].
  unfold on_status_200, try_except_JSONDecodeError.
  unfold seq at 1. unfold lift at 1. rewrite Hbody.
  unfold zero_counters, seq.
  rewrite results_write_spec, print_spec, !store_name_spec.
  apply report_spec; reflexivity.
Qed.



End ExtractRun.

Lemma other_status_raises_NameError_witness :
  Extract.run (ext := Sample.http Sample.server_error) ["b.jpg"; "notes.txt"] =
  (Raise (NameError "error_msg"),
   {| Extract.stdout :=
        Extract.preamble (ext := Sample.http Sample.server_error)
        ++ "Error 500: Internal Server Error" ++ PyStr.nl;
      Extract.results := Some "";
      Extract.opened := ["preprocessed_images/b.jpg"];
      Extract.globals := [] |}).
Proof.
  refine (other_status_raises_NameError (ext := Sample.http Sample.server_error)
            ["b.jpg"; "notes.txt"] "key" "https://example.invalid/v1"
            Sample.server_error eq_refl eq_refl _ _ _).
  - discriminate.
  - reflexivity.
  - discriminate.
Defined.


(* ================================================================= *)
(** * Further properties *)

(* ================================================================= *)
(** ** The names of the outputs *)

Section NormalizeFacts.

Import PyStr PyList Preprocess Notions.

Lemma sub_runs_free_of_sep (s : string) :
  forall in_run, free_of is_sep (sub_runs in_run s) = true.
Proof.
  unfold free_of.
  induction s as [|c s IH]; intros in_run; cbn [sub_runs]; [reflexivity|].
  destruct (is_sep c) eqn:E.
  - destruct in_run; [apply IH|].
    cbn [list_ascii_of_string forallb]. now rewrite IH.
  - cbn [list_ascii_of_string forallb]. now rewrite E, IH.
Qed.

Lemma lower_sub_runs_lower (s : string) :
  forall in_run, lower (sub_runs in_run (lower s)) = sub_runs in_run (lower s).
Proof.
  induction s as [|c s IH]; intros in_run; cbn [lower sub_runs]; [reflexivity|].
  destruct (is_sep (lower_char c)).
  - destruct in_run; [apply IH|]. cbn [lower]. now rewrite IH.
  - cbn [lower]. now rewrite lower_char_idempotent, IH.
Qed.

(** X1: the normalized name holds no white space and no hyphen, and no
    capital letter: putting it in lower case changes nothing. *)
Theorem normalize_filename_is_clean (filename : string) :
  free_of is_sep (normalize_filename filename) = true
  /\ lower (normalize_filename filename) = normalize_filename filename.
Proof.
  unfold normalize_filename. split.
  - apply sub_runs_free_of_sep.
  - apply lower_sub_runs_lower.
Qed.

Lemma list_ascii_of_string_app (a b : string) :
  list_ascii_of_string (a ++ b) = (list_ascii_of_string a ++ list_ascii_of_string b)%list.
Proof.
  induction a as [|c a IH]; cbn; [reflexivity | now rewrite IH].
Qed.

Lemma string_of_list_ascii_app (a b : list ascii) :
  string_of_list_ascii (a ++ b) = string_of_list_ascii a ++ string_of_list_ascii b.
Proof.
  induction a as [|c a IH]; cbn; [reflexivity | now rewrite IH].
Qed.

Lemma split_last_dot_after (e r : list ascii) :
  forallb (fun c => negb (is_dot c)) e = true ->
  forallb (fun c => negb (is_slash c)) e = true ->
  split_last_dot (e ++ "."%char :: r) = Some r.
Proof.
  induction e as [|c e IH]; intros H H'.
  - reflexivity.
  - cbn [forallb] in H, H'.
    apply andb_true_iff in H. destruct H as [Hc He].
    apply andb_true_iff in H'. destruct H' as [Hc' He'].
    apply negb_true_iff in Hc, Hc'.
    cbn [app split_last_dot]. rewrite Hc, Hc'. now apply IH.
Qed.

Lemma rev_basename_without_slash (l : list ascii) :
  forallb (fun c => negb (is_slash c)) l = true -> rev_basename l = l.
Proof.
  induction l as [|c l IH]; intros H; [reflexivity|].
  cbn [forallb] in H. apply andb_true_iff in H. destruct H as [Hc Hl].
  apply negb_true_iff in Hc. cbn [rev_basename]. now rewrite Hc, IH.
Qed.

Lemma forallb_rev {A} (p : A -> bool) (l : list A) :
  forallb p (rev l) = forallb p l.
Proof.
  induction l as [|x l IH]; [reflexivity|].
  cbn [rev forallb]. rewrite forallb_app, IH. cbn [forallb].
  rewrite andb_true_r. apply andb_comm.
Qed.

Lemma free_of_app (p : ascii -> bool) (a b : string) :
  free_of p (a ++ b) = free_of p a && free_of p b.
Proof.
  unfold free_of. now rewrite list_ascii_of_string_app, forallb_app.
Qed.

(** The root of [stem.ext], a name without ["/"], when the extension
    holds no dot and the stem is not made of dots only. *)
Lemma splitext_root_of_stem_ext (stem e : string) :
  free_of is_slash (stem ++ String "." e) = true ->
  free_of is_dot e = true ->
  all_chars is_dot stem = false ->
  splitext_root (stem ++ String "." e) = stem.
Proof.
  intros Hslash He Hstem.
  rewrite free_of_app in Hslash. apply andb_true_iff in Hslash.
  destruct Hslash as [Hs1 Hs2].
  change (String "." e) with ("." ++ e) in Hs2.
  rewrite free_of_app in Hs2. apply andb_true_iff in Hs2. destruct Hs2 as [_ Hs2].
  unfold free_of, all_chars, splitext_root in *.
  rewrite list_ascii_of_string_app. cbn [list_ascii_of_string].
  rewrite rev_app_distr. cbn [rev]. rewrite <- app_assoc. cbn [app].
  rewrite split_last_dot_after by now rewrite forallb_rev.
  rewrite rev_basename_without_slash by now rewrite forallb_rev.
  rewrite forallb_rev, Hstem, rev_involutive.
  apply string_of_list_ascii_of_string.
Qed.

(** X2: two names of a folder (names without ["/"]) with the same stem,
    up to the case of the letters, get the same normalized name whatever
    their extensions: in one folder, [Scan 1.PNG] and [scan 1.jpg] are
    written to the same output file. *)
Theorem normalize_filename_ignores_extension_and_case (stem stem' e e' : string) :
  free_of is_slash (stem ++ String "." e) = true ->
  free_of is_slash (stem' ++ String "." e') = true ->
  free_of is_dot e = true ->
  free_of is_dot e' = true ->
  all_chars is_dot stem = false ->
  all_chars is_dot stem' = false ->
  lower stem = lower stem' ->
  normalize_filename (stem ++ String "." e) = normalize_filename (stem' ++ String "." e')
  /\ save_path (stem ++ String "." e) = save_path (stem' ++ String "." e').
Proof.
  intros Hn Hn' He He' Hs Hs' Hlow.
  assert (E : normalize_filename (stem ++ String "." e)
              = normalize_filename (stem' ++ String "." e')).
  { unfold normalize_filename.
    rewrite !splitext_root_of_stem_ext by assumption. now rewrite Hlow. }
  split; [exact E|]. unfold save_path. now rewrite E.
Qed.

Lemma normalize_filename_ignores_extension_and_case_witness :
  save_path "Scan 1.PNG" = save_path "scan 1.jpg"
  /\ save_path "scan 1.jpg" = "preprocessed_images/scan_1_preprocessed.jpg".
Proof.
  split.
  - exact (proj2 (normalize_filename_ignores_extension_and_case
                    "Scan 1" "scan 1" "PNG" "jpg"
                    eq_refl eq_refl eq_refl eq_refl eq_refl eq_refl eq_refl)).
  - reflexivity.
Defined.

(** With a ["/"] after the last dot, or right before it, nothing is cut
    off: the hypothesis of X2 on the names cannot be dropped. *)
Example splitext_root_with_directories :
  splitext_root "a.p/ng" = "a.p/ng"
  /\ splitext_root "scans.d/.hidden" = "scans.d/.hidden"
  /\ splitext_root "scans.d/..a.b" = "scans.d/..a"
  /\ splitext_root "images/My File.PNG" = "images/My File"
  /\ normalize_filename "a.p/ng" <> normalize_filename "a.x".
Proof.
  repeat split; try (vm_compute; reflexivity). discriminate.
Qed.

End NormalizeFacts.

(* ================================================================= *)
(** ** The binarization *)

Section BinarizationFacts.

Import PyStr PyFloat PyList Preprocess Notions.

Lemma bin_image_map (gray : gray_image) (t : Z) :
  bin_image gray t = map (map (threshold_binary_pixel t 255)) gray.
Proof. reflexivity. Qed.

(** X3: the binarized image has the geometry of the grayscale image and
    the two values 0 and 255 only; thresholding it again, at any
    threshold from 0 to 254, gives it back. *)
Theorem binarization_is_two_valued_and_stable (gray : gray_image) (t t' : Z) :
  List.length (bin_image gray t) = List.length gray
  /\ (forall i j, pixel (bin_image gray t) i j = None <-> pixel gray i j = None)
  /\ (forall i j v, pixel (bin_image gray t) i j = Some v -> v = 0 \/ v = 255)
  /\ (0 <= t' < 255 -> bin_image (bin_image gray t) t' = bin_image gray t).
Proof.
  repeat apply conj.
  - rewrite bin_image_map. apply length_map.
  - intros i j. rewrite pixel_bin_image.
    destruct (pixel gray i j); cbn; split; intros H; try discriminate H; reflexivity.
  - intros i j v. rewrite pixel_bin_image.
    destruct (pixel gray i j) as [p|]; cbn; [|discriminate].
    intros H. injection H as <-. unfold threshold_binary_pixel.
    destruct (p >? t); auto.
  - intros Ht'. rewrite !bin_image_map, map_map.
    apply map_ext. intros row. rewrite map_map. apply map_ext. intros p.
    unfold threshold_binary_pixel.
    destruct (p >? t).
    + destruct (Z.gtb_spec 255 t'); [reflexivity | lia].
    + destruct (Z.gtb_spec 0 t'); [lia | reflexivity].
Qed.

Lemma binarization_is_two_valued_and_stable_witness :
  bin_image (bin_image [[12; 200]; [90; 91]] 90) 128 = bin_image [[12; 200]; [90; 91]] 90
  /\ bin_image [[12; 200]; [90; 91]] 90 = [[0; 255]; [0; 255]].
Proof.
  split.
  - apply (proj2 (proj2 (proj2 (binarization_is_two_valued_and_stable
                                  [[12; 200]; [90; 91]] 90 128)))). lia.
  - reflexivity.
Defined.

(** X4: the threshold lies between 0 and 255 and does not grow with the
    offset, so that a pixel that is white at an offset stays white at
    every larger offset. *)
Theorem larger_offset_keeps_white (gray : gray_image) (off1 off2 t1 t2 : Z) :
  off1 <= off2 ->
  threshold_val gray off1 = Ok t1 ->
  threshold_val gray off2 = Ok t2 ->
  0 <= t2 <= t1 /\ t1 <= 255
  /\ (forall i j, pixel (bin_image gray t1) i j = Some 255 ->
                  pixel (bin_image gray t2) i j = Some 255).
Proof.
  unfold threshold_val. intros Hoff H1 H2.
  destruct (py_int (mean gray)) as [m|e]; [|discriminate H1].
  cbn [Py.bind] in H1, H2. injection H1 as <-. injection H2 as <-.
  split; [lia|]. split; [lia|].
  intros i j. rewrite !pixel_bin_image.
  destruct (pixel gray i j) as [p|]; cbn; [|discriminate].
  unfold threshold_binary_pixel.
  destruct (Z.gtb_spec p (Z.max 0 (Z.min 255 (m - off1)))); [|discriminate].
  intros _. destruct (Z.gtb_spec p (Z.max 0 (Z.min 255 (m - off2)))); [reflexivity | lia].
Qed.

Lemma larger_offset_keeps_white_witness :
  pixel (bin_image [[100; 90]; [110; 100]] 70) 1 0 = Some 255.
Proof.
  assert (H1 : threshold_val [[100; 90]; [110; 100]] 0 = Ok 100)
    by (vm_compute; reflexivity).
  assert (H2 : threshold_val [[100; 90]; [110; 100]] 30 = Ok 70)
    by (vm_compute; reflexivity).
  exact (proj2 (proj2 (larger_offset_keeps_white
                         [[100; 90]; [110; 100]] 0 30 100 70 ltac:(lia) H1 H2))
           1%nat 0%nat eq_refl).
Defined.

End BinarizationFacts.

(* ================================================================= *)
(** ** The loop of the Preprocessor *)

Section StringOrder.

Import PyList.

Lemma leb_iff (a b : string) :
  String.leb a b = true <-> a = b \/ OrderedTypeEx.String_as_OT.lt a b.
Proof.
  unfold String.leb.
  change (String.compare a b) with (OrderedTypeEx.String_as_OT.cmp a b).
  destruct (OrderedTypeEx.String_as_OT.cmp a b) eqn:E.
  - apply OrderedTypeEx.String_as_OT.cmp_eq in E. tauto.
  - apply OrderedTypeEx.String_as_OT.cmp_lt in E. tauto.
  - split; [discriminate|]. intros [->|H].
    + assert (OrderedTypeEx.String_as_OT.cmp b b = Eq)
        by now apply OrderedTypeEx.String_as_OT.cmp_eq.
      congruence.
    + apply OrderedTypeEx.String_as_OT.cmp_lt in H. congruence.
Qed.

Lemma leb_trans (a b c : string) :
  String.leb a b = true -> String.leb b c = true -> String.leb a c = true.
Proof.
  rewrite !leb_iff. intros [->|Hab] [->|Hbc]; auto.
  right. eapply OrderedTypeEx.String_as_OT.lt_trans; eassumption.
Qed.

Lemma leb_false_flip (a b : string) :
  String.leb a b = false -> String.leb b a = true.
Proof.
  intros H. destruct (String.leb_total a b) as [E|E]; [congruence | exact E].
Qed.

(** Two insertions give the same list in either order. *)
Lemma insert_sorted_comm (x y : string) (l : list string) :
  insert_sorted x (insert_sorted y l) = insert_sorted y (insert_sorted x l).
Proof.
  induction l as [|z l IH].
  - cbn [insert_sorted].
    destruct (String.leb x y) eqn:Exy, (String.leb y x) eqn:Eyx; try reflexivity.
    + now rewrite (String.leb_antisym x y Exy Eyx).
    + apply leb_false_flip in Exy. congruence.
  - cbn [insert_sorted].
    destruct (String.leb y z) eqn:Eyz, (String.leb x z) eqn:Exz; cbn [insert_sorted].
    + destruct (String.leb x y) eqn:Exy, (String.leb y x) eqn:Eyx;
        rewrite ?Exz, ?Eyz; try reflexivity.
      * now rewrite (String.leb_antisym x y Exy Eyx).
      * apply leb_false_flip in Exy. congruence.
    + rewrite Eyz.
      destruct (String.leb x y) eqn:Exy.
      * rewrite (leb_trans x y z Exy Eyz) in Exz. discriminate Exz.
      * now rewrite Exz.
    + rewrite Exz.
      destruct (String.leb y x) eqn:Eyx.
      * rewrite (leb_trans y x z Eyx Exz) in Eyz. discriminate Eyz.
      * now rewrite Eyz.
    + now rewrite Exz, Eyz, IH.
Qed.

Lemma sort_permutation (l l' : list string) :
  Permutation.Permutation l l' -> sort l = sort l'.
Proof.
  induction 1 as [|x l l' _ IH|x y l|l l' l'' _ IH1 _ IH2]; cbn [sort].
  - reflexivity.
  - now rewrite IH.
  - apply insert_sorted_comm.
  - now rewrite IH1.
Qed.

Lemma filter_permutation {A} (p : A -> bool) (l l' : list A) :
  Permutation.Permutation l l' ->
  Permutation.Permutation (filter p l) (filter p l').
Proof.
  induction 1 as [|x l l' _ IH|x y l|l l' l'' _ IH1 _ IH2]; cbn [filter].
  - constructor.
  - destruct (p x); [now constructor | exact IH].
  - destruct (p x), (p y); try reflexivity. constructor.
  - now transitivity (filter p l').
Qed.

Lemma insert_sorted_Sorted (x : string) (l : list string) :
  Sorted.Sorted (fun a b => String.leb a b = true) l ->
  Sorted.Sorted (fun a b => String.leb a b = true) (insert_sorted x l).
Proof.
  induction 1 as [|z l Hl IH Hz]; cbn [insert_sorted].
  - repeat constructor.
  - destruct (String.leb x z) eqn:E.
    + repeat constructor; assumption.
    + constructor; [exact IH|].
      apply leb_false_flip in E.
      destruct Hz as [|w l Hzw]; cbn [insert_sorted].
      * now constructor.
      * destruct (String.leb x w); now constructor.
Qed.

Lemma sort_Sorted (l : list string) :
  Sorted.Sorted (fun a b => String.leb a b = true) (sort l).
Proof.
  induction l as [|x l IH]; cbn [sort]; [constructor|].
  now apply insert_sorted_Sorted.
Qed.

End StringOrder.

Section PreprocessLoop.

Import PyStr PyFloat PyList Preprocess Notions.

Context {ext : Extern}.

(** The loop over images that can all be processed goes on with what
    follows them, after the three accesses of each. *)
Lemma process_images_prefix (pre rest : list string) :
  (forall f, In f pre ->
     is_ok (preprocess_image (path_join images_folder f) (offset f)) = true) ->
  forall log acc,
    exists acc',
      process_images (pre ++ rest) log acc =
      process_images rest (rev (flat_map accesses pre) ++ log) acc'.
Proof.
  induction pre as [|f pre IH]; intros Hok log acc.
  - now exists acc.
  - cbn [app process_images].
    assert (Hf := Hok f (or_introl eq_refl)).
    destruct (preprocess_image (path_join images_folder f) (offset f))
      as [[processed n]|e]; [|discriminate Hf].
    edestruct IH as [acc' E]; [intros g Hg; apply Hok; now right|].
    exists acc'. rewrite E. f_equal.
    cbn [flat_map accesses app rev]. now rewrite <- !app_assoc.
Qed.

(** X5: when every image can be processed, [main] measures, decodes and
    writes each selected image once, in the ascending order of the
    names. *)
Theorem main_touches_each_image_once_in_sorted_order (listdir : list string) :
  let files := sort (filter is_selected listdir) in
  (forall f, In f files ->
     is_ok (preprocess_image (path_join images_folder f) (offset f)) = true) ->
  rev (fst (main listdir)) = flat_map accesses files
  /\ Sorted.Sorted (fun a b => String.leb a b = true) files.
Proof.
  intros files Hok. split; [|apply sort_Sorted].
  unfold main.
  destruct (filter is_selected listdir) as [|f0 fs] eqn:Hsel.
  - reflexivity.
  - fold files.
    destruct (process_images_prefix files [] Hok []
                {| combined_original_size := 0;
                   combined_final_size := 0;
                   total_images_processed := 0 |}) as [acc' E].
    rewrite app_nil_r in E. rewrite E. cbn [process_images fst].
    now rewrite app_nil_r, rev_involutive.
Qed.

(** X6: an image that cannot be decoded ends the run with [ValueError]:
    the images before it, in the ascending order of the names, have been
    written, and the images after it are not touched. *)
Theorem unreadable_image_aborts_the_batch (listdir pre post : list string) (bad : string) :
  sort (filter is_selected listdir) = (pre ++ bad :: post)%list ->
  (forall f, In f pre ->
     is_ok (preprocess_image (path_join images_folder f) (offset f)) = true) ->
  imread (path_join images_folder bad) = None ->
  snd (main listdir) =
    Raise (ValueError ("Could not read image: " ++ path_join images_folder bad))
  /\ rev (fst (main listdir)) =
     (flat_map accesses pre
      ++ [Getsize (path_join images_folder bad); Imread (path_join images_folder bad)])%list.
Proof.
  intros Hfiles Hok Hbad. unfold main.
  destruct (filter is_selected listdir) as [|f0 fs] eqn:Hsel.
  - cbn [sort] in Hfiles. now destruct pre.
  - rewrite Hfiles.
    destruct (process_images_prefix pre (bad :: post) Hok []
                {| combined_original_size := 0;
                   combined_final_size := 0;
                   total_images_processed := 0 |}) as [acc' E].
    assert (Hpre : preprocess_image (path_join images_folder bad) (offset bad) =
                   Raise (ValueError ("Could not read image: "
                                      ++ path_join images_folder bad)))
      by (unfold preprocess_image; now rewrite Hbad).
    rewrite E. cbn [process_images]. rewrite Hpre.
    cbn [fst snd Py.bind]. split; [reflexivity|].
    rewrite app_nil_r. cbn [rev]. rewrite rev_involutive.
    now rewrite <- app_assoc.
Qed.

(** X7: the result of [main] and the accesses it makes do not depend on
    the order in which the folder is listed. *)
Theorem main_ignores_the_listing_order (listdir listdir' : list string) :
  Permutation.Permutation listdir listdir' ->
  main listdir = main listdir'.
Proof.
  intros HP. apply (filter_permutation is_selected) in HP.
  pose proof (sort_permutation _ _ HP) as Hsort.
  unfold main.
  destruct (filter is_selected listdir) as [|f fs],
           (filter is_selected listdir') as [|f' fs'].
  - reflexivity.
  - apply Permutation.Permutation_nil in HP. discriminate HP.
  - apply Permutation.Permutation_sym, Permutation.Permutation_nil in HP. discriminate HP.
  - now rewrite Hsort.
Qed.

End PreprocessLoop.

Lemma main_touches_each_image_once_in_sorted_order_witness :
  rev (fst (Preprocess.main (ext := Sample.cv) ["b.png"; "notes.txt"; "a.png"])) =
  [Preprocess.Getsize "images/a.png"; Preprocess.Imread "images/a.png";
   Preprocess.Imwrite "preprocessed_images/a_preprocessed.jpg";
   Preprocess.Getsize "images/b.png"; Preprocess.Imread "images/b.png";
   Preprocess.Imwrite "preprocessed_images/b_preprocessed.jpg"].
Proof.
  refine (proj1 (main_touches_each_image_once_in_sorted_order (ext := Sample.cv)
                   ["b.png"; "notes.txt"; "a.png"] _)).
  intros f [<-|[<-|[]]]; vm_compute; reflexivity.
Defined.

Lemma unreadable_image_aborts_the_batch_witness :
  snd (Preprocess.main (ext := Sample.cv) ["z.png"; "broken.jpg"; "a.png"]) =
    Raise (ValueError "Could not read image: images/broken.jpg")
  /\ rev (fst (Preprocess.main (ext := Sample.cv) ["z.png"; "broken.jpg"; "a.png"])) =
     [Preprocess.Getsize "images/a.png"; Preprocess.Imread "images/a.png";
      Preprocess.Imwrite "preprocessed_images/a_preprocessed.jpg";
      Preprocess.Getsize "images/broken.jpg"; Preprocess.Imread "images/broken.jpg"].
Proof.
  refine (unreadable_image_aborts_the_batch (ext := Sample.cv)
            ["z.png"; "broken.jpg"; "a.png"] ["a.png"] ["z.png"] "broken.jpg" _ _ _).
  - reflexivity.
  - intros f [<-|[]]. vm_compute. reflexivity.
  - reflexivity.
Defined.

Lemma main_ignores_the_listing_order_witness :
  Preprocess.main (ext := Sample.cv) ["b.png"; "notes.txt"; "a.png"] =
  Preprocess.main (ext := Sample.cv) ["a.png"; "b.png"; "notes.txt"].
Proof.
  apply main_ignores_the_listing_order.
  apply Permutation.Permutation_sym.
  apply (Permutation.Permutation_cons_app ["b.png"; "notes.txt"] [] "a.png").
  apply Permutation.Permutation_refl.
Defined.

(* ================================================================= *)
(** ** From the Preprocessor to the Extractor *)

Section Pipeline.

Import PyStr PyList Notions.

(** A word without a given character starts a text that goes on with
    that character exactly when it starts the text before it. *)
Lemma prefix_before_char (c0 : ascii) (w : string) :
  free_of (fun c => Ascii.eqb c c0) w = true ->
  forall x y, prefix w (x ++ String c0 y) = prefix w x.
Proof.
  unfold free_of.
  induction w as [|a w IH]; intros Hw x y.
  - now destruct x.
  - cbn [list_ascii_of_string forallb] in Hw. apply andb_true_iff in Hw.
    destruct Hw as [Ha Hw]. apply negb_true_iff, Ascii.eqb_neq in Ha.
    destruct x as [|c x]; cbn [append prefix].
    + destruct (ascii_dec a c0); [contradiction | reflexivity].
    + destruct (ascii_dec a c); [now apply IH | reflexivity].
Qed.

(** A word without white space, hyphen and underscore starts the
    normalized text, followed by an underscore, exactly when it starts
    the text. *)
Lemma prefix_sub_runs (w : string) :
  free_of Preprocess.is_sep w = true ->
  free_of (fun c => Ascii.eqb c "_") w = true ->
  forall x s,
    prefix w (Preprocess.sub_runs false x ++ String "_" s) = prefix w x.
Proof.
  unfold free_of.
  induction w as [|a w IH]; intros Hsep Hund x s.
  - now destruct (Preprocess.sub_runs false x ++ String "_" s), x.
  - cbn [list_ascii_of_string forallb] in Hsep, Hund.
    apply andb_true_iff in Hsep. destruct Hsep as [Ha Hsep].
    apply andb_true_iff in Hund. destruct Hund as [Hu Hund].
    apply negb_true_iff in Ha. apply negb_true_iff, Ascii.eqb_neq in Hu.
    destruct x as [|c x]; cbn [Preprocess.sub_runs append prefix].
    + destruct (ascii_dec a "_"); [contradiction | reflexivity].
    + destruct (Preprocess.is_sep c) eqn:Ec; cbn [append prefix].
      * destruct (ascii_dec a "_"); [contradiction|].
        destruct (ascii_dec a c) as [->|]; [congruence | reflexivity].
      * destruct (ascii_dec a c); [now apply IH | reflexivity].
Qed.

Lemma split_last_dot_shape (l r : list ascii) :
  Preprocess.split_last_dot l = Some r -> exists e, l = (e ++ "."%char :: r)%list.
Proof.
  induction l as [|c l IH]; cbn [Preprocess.split_last_dot]; [discriminate|].
  unfold Preprocess.is_dot at 1. destruct (Ascii.eqb_spec c ".") as [->|_].
  - intros H. injection H as <-. now exists [].
  - destruct (Preprocess.is_slash c); [discriminate|].
    intros H. destruct (IH H) as [e ->]. now exists (c :: e).
Qed.

(** The root of a name is the name, or the name up to one of its dots. *)
Lemma splitext_root_shape (filename : string) :
  Preprocess.splitext_root filename = filename \/
  exists e, filename = Preprocess.splitext_root filename ++ String "." e.
Proof.
  unfold Preprocess.splitext_root.
  destruct (Preprocess.split_last_dot (rev (list_ascii_of_string filename)))
    as [r|] eqn:E; [|now left].
  destruct (forallb Preprocess.is_dot (Preprocess.rev_basename r)); [now left|]. right.
  apply split_last_dot_shape in E. destruct E as [e E].
  exists (string_of_list_ascii (rev e)).
  rewrite <- (string_of_list_ascii_of_string filename) at 1.
  rewrite <- (rev_involutive (list_ascii_of_string filename)), E.
  rewrite rev_app_distr. cbn [rev]. rewrite <- app_assoc. cbn [app].
  now rewrite string_of_list_ascii_app.
Qed.

Lemma startswith_output_name (w filename : string) :
  free_of Preprocess.is_sep w = true ->
  free_of (fun c => Ascii.eqb c "_") w = true ->
  free_of (fun c => Ascii.eqb c ".") w = true ->
  startswith (lower (Preprocess.normalize_filename filename ++ "_preprocessed.jpg")) w
  = startswith (lower filename) w.
Proof.
  intros Hsep Hund Hdot. unfold startswith, Preprocess.normalize_filename.
  rewrite lower_app, lower_sub_runs_lower.
  change (lower "_preprocessed.jpg") with (String "_" "preprocessed.jpg").
  rewrite prefix_sub_runs by assumption.
  destruct (splitext_root_shape filename) as [->|[e E]]; [reflexivity|].
  rewrite E at 2. rewrite lower_app. cbn [lower].
  change (lower_char ".") with "."%char.
  now rewrite prefix_before_char.
Qed.

(** X8: every file that the Preprocessor writes is one that the Extractor
    selects, and the label that the Extractor reads off its name is the
    label of the offset that the Preprocessor used for the original
    file. *)
Theorem output_names_are_selected_and_labelled (filename : string) :
  Extract.is_selected (Preprocess.normalize_filename filename ++ "_preprocessed.jpg")
  = true
  /\ Extract.id_type (Preprocess.normalize_filename filename ++ "_preprocessed.jpg")
     = label_of_offset (Preprocess.offset filename).
Proof.
  split.
  - unfold Extract.is_selected, endswith_any. cbn [existsb].
    apply orb_true_iff. right. apply orb_true_iff. left.
    apply endswith_iff.
    exists (lower (Preprocess.normalize_filename filename) ++ "_preprocessed.").
    now rewrite lower_app, append_assoc.
  - unfold Extract.id_type, Preprocess.offset, label_of_offset.
    rewrite !startswith_output_name by reflexivity.
    destruct (startswith (lower filename) "license"); [reflexivity|].
    destruct (startswith (lower filename) "passport"); reflexivity.
Qed.

End Pipeline.

(* ================================================================= *)
(** ** The request of the Extractor, once more *)

Section ExtractPreflight.

Import PyStr PyFloat PyList PyJson Extract Notions.

Context {ext : Extern}.

Lemma credentials_spec (w : world) :
  credentials w =
  (match nonempty (getenv "FIREWORKS_API_KEY"), nonempty (getenv "FIREWORKS_ENDPOINT") with
   | Some key, Some endpoint => Ok (key, endpoint)
   | _, _ => Raise (ValueError "Missing Fireworks API credentials in environment variables.")
   end,
   {| stdout := stdout w ++ preamble; results := results w;
      opened := opened w; globals := globals w |}).
Proof.
  unfold credentials, seq, print, preamble. cbn [stdout results opened globals].
  rewrite <- !append_assoc.
  destruct (nonempty (getenv "FIREWORKS_API_KEY")),
           (nonempty (getenv "FIREWORKS_ENDPOINT")); reflexivity.
Qed.

(** X9: a run that fails before the response is there leaves the results
    file alone: with the key or the endpoint missing or empty it raises
    [ValueError] before any image is opened; with no image selected it
    raises [FileNotFoundError]; and an exception of the HTTP client goes
    through, after the images have been read. *)
Theorem failures_before_the_response_leave_no_results_file (listdir : list string) :
  (nonempty (getenv "FIREWORKS_API_KEY") = None \/
   nonempty (getenv "FIREWORKS_ENDPOINT") = None ->
   run listdir =
   (Raise (ValueError "Missing Fireworks API credentials in environment variables."),
    {| stdout := preamble; results := None; opened := []; globals := [] |}))
  /\ (forall key endpoint,
       nonempty (getenv "FIREWORKS_API_KEY") = Some key ->
       nonempty (getenv "FIREWORKS_ENDPOINT") = Some endpoint ->
       image_files listdir = [] ->
       run listdir =
       (Raise (FileNotFoundError "No images found in the 'preprocessed_images' folder."),
        {| stdout := preamble; results := None; opened := []; globals := [] |}))
  /\ (forall key endpoint e,
       nonempty (getenv "FIREWORKS_API_KEY") = Some key ->
       nonempty (getenv "FIREWORKS_ENDPOINT") = Some endpoint ->
       image_files listdir <> [] ->
       (forall url hs body, requests_post url hs body = Raise e) ->
       run listdir =
       (Raise e,
        {| stdout := preamble; results := None;
           opened := rev (map image_path (image_files listdir)); globals := [] |})).
Proof.
  repeat apply conj.
  - intros H. unfold run, script. unfold seq at 1. rewrite credentials_spec.
    destruct H as [H|H]; rewrite H;
      [|destruct (nonempty (getenv "FIREWORKS_API_KEY"))]; reflexivity.
  - intros key endpoint Hkey Hend Hfiles.
    unfold run, script. unfold seq at 1. rewrite credentials_spec, Hkey, Hend, Hfiles.
    reflexivity.
  - intros key endpoint e Hkey Hend Hfiles Hpost.
    unfold run, script. unfold seq at 1. rewrite credentials_spec, Hkey, Hend.
    destruct (image_files listdir) as [|f files]; [now elim Hfiles|].
    unfold seq at 1. rewrite batch_content_spec.
    unfold seq, lift. rewrite Hpost.
    cbn [stdout results opened globals initial_world]. now rewrite app_nil_r.
Qed.

Lemma nth_error_image_blocks (files : list string) (k : nat) (f : string) :
  nth_error files k = Some f ->
  nth_error (flat_map image_blocks files) (2 * k) =
    Some (image_block (b64encode (read_bytes (image_path f))))
  /\ nth_error (flat_map image_blocks files) (1 + 2 * k) =
    Some (text_block (caption f)).
Proof.
  revert k. induction files as [|g files IH]; intros [|k] H; try discriminate H.
  - injection H as ->. split; reflexivity.
  - replace (2 * S k)%nat with (S (S (2 * k))) by lia.
    replace (1 + S (S (2 * k)))%nat with (S (S (1 + 2 * k))) by lia.
    cbn [flat_map image_blocks app nth_error]. now apply IH.
Qed.

Lemma caption_is_not_the_instructions (f : string) :
  caption f <> instructions_text.
Proof.
  unfold caption, instructions_text. cbn [append]. discriminate.
Qed.

Lemma image_blocks_without_instructions (files : list string) (b : json) :
  In b (flat_map image_blocks files) -> b <> text_block instructions_text.
Proof.
  intros H. apply in_flat_map in H. destruct H as (f & _ & [<-|[<-|[]]]).
  - discriminate.
  - intros E.
    apply (f_equal (fun v => match v with
                             | JObj [_; (_, JStr t)] => t
                             | _ => EmptyString
                             end)) in E.
    change (caption f = instructions_text) in E.
    now apply caption_is_not_the_instructions in E.
Qed.

(** X10: in the content of the request the instructions are the first
    block and no other; after them come, for the image at each position
    [k] of the list, its image block at position [1 + 2k] and its caption
    at position [2 + 2k]. *)
Theorem content_has_the_instructions_once_and_first (files : list string) (w : world) :
  exists blocks,
    fst (batch_content files w) = Ok blocks
    /\ List.length blocks = (1 + 2 * List.length files)%nat
    /\ (forall k, nth_error blocks k = Some (text_block instructions_text) <-> k = 0%nat)
    /\ (forall k f, nth_error files k = Some f ->
          nth_error blocks (1 + 2 * k) =
            Some (image_block (b64encode (read_bytes (image_path f))))
          /\ nth_error blocks (2 + 2 * k) = Some (text_block (caption f))).
Proof.
  exists (text_block instructions_text :: flat_map image_blocks files).
  rewrite batch_content_spec. repeat apply conj.
  - reflexivity.
  - cbn [List.length]. f_equal.
    induction files as [|f files IH]; [reflexivity|].
    cbn [flat_map image_blocks app List.length]. rewrite IH. lia.
  - intros [|k]; split; intros H; try reflexivity; try discriminate H.
    exfalso. cbn [nth_error] in H. apply nth_error_In in H.
    now apply image_blocks_without_instructions in H.
  - intros k f H. apply nth_error_image_blocks in H. exact H.
Qed.

End ExtractPreflight.

Lemma failures_before_the_response_leave_no_results_file_witness :
  Extract.run (ext := MoreSamples.http_without_key) ["a.jpg"] =
    (Raise (ValueError "Missing Fireworks API credentials in environment variables."),
     {| Extract.stdout := Extract.preamble (ext := MoreSamples.http_without_key);
        Extract.results := None; Extract.opened := []; Extract.globals := [] |})
  /\ Extract.run (ext := MoreSamples.http_down) ["notes.txt"] =
    (Raise (FileNotFoundError "No images found in the 'preprocessed_images' folder."),
     {| Extract.stdout := Extract.preamble (ext := MoreSamples.http_down);
        Extract.results := None; Extract.opened := []; Extract.globals := [] |})
  /\ Extract.run (ext := MoreSamples.http_down) ["a.jpg"; "b.jpg"] =
    (Raise ConnectionError,
     {| Extract.stdout := Extract.preamble (ext := MoreSamples.http_down);
        Extract.results := None;
        Extract.opened := ["preprocessed_images/b.jpg"; "preprocessed_images/a.jpg"];
        Extract.globals := [] |}).
Proof.
  repeat apply conj.
  - apply (proj1 (failures_before_the_response_leave_no_results_file
                    (ext := MoreSamples.http_without_key) ["a.jpg"])).
    now left.
  - now apply (proj1 (proj2 (failures_before_the_response_leave_no_results_file
                               (ext := MoreSamples.http_down) ["notes.txt"]))
                 "key" "https://example.invalid/v1").
  - apply (proj2 (proj2 (failures_before_the_response_leave_no_results_file
                           (ext := MoreSamples.http_down) ["a.jpg"; "b.jpg"]))
             "key" "https://example.invalid/v1" ConnectionError);
      [reflexivity | reflexivity | discriminate | reflexivity].
Defined.

Lemma content_has_the_instructions_once_and_first_witness :
  exists blocks,
    fst (Extract.batch_content (ext := Sample.http Sample.server_error)
           ["b.jpg"; "a.jpg"] Extract.initial_world) = Ok blocks
    /\ nth_error blocks 3 =
         Some (Extract.image_block "b64(preprocessed_images/a.jpg)")
    /\ nth_error blocks 4 = Some (Extract.text_block (Extract.caption "a.jpg")).
Proof.
  destruct (content_has_the_instructions_once_and_first
              (ext := Sample.http Sample.server_error)
              ["b.jpg"; "a.jpg"] Extract.initial_world)
    as (blocks & Hrun & _ & _ & Hpos).
  exists blocks. split; [exact Hrun|].
  exact (Hpos 1%nat "a.jpg" eq_refl).
Defined.

(* ================================================================= *)
(** ** The post-processing of a record, once more *)

Section PostProcessFacts.

Import PyStr PyFloat PyList PyJson Extract Notions.

Lemma dict_lookup_store_same (d : dict) (k : string) (v : json) :
  dict_lookup (dict_store d k v) k = Some v.
Proof.
  induction d as [|[k' v'] d IH]; cbn [dict_store dict_lookup].
  - now rewrite String.eqb_refl.
  - destruct (String.eqb k' k) eqn:E; cbn [dict_lookup].
    + now rewrite String.eqb_refl.
    + now rewrite E.
Qed.

Lemma dict_lookup_store_other (d : dict) (k k' : string) (v : json) :
  k' <> k -> dict_lookup (dict_store d k v) k' = dict_lookup d k'.
Proof.
  intros Hk. induction d as [|[k0 v0] d IH]; cbn [dict_store dict_lookup].
  - destruct (String.eqb_spec k k'); [congruence | reflexivity].
  - destruct (String.eqb_spec k0 k) as [->|Hne]; cbn [dict_lookup].
    + destruct (String.eqb_spec k k'); [congruence | reflexivity].
    + now rewrite IH.
Qed.

Lemma dict_store_store (d : dict) (k : string) (v v' : json) :
  dict_store (dict_store d k v) k v' = dict_store d k v'.
Proof.
  induction d as [|[k0 v0] d IH]; cbn [dict_store].
  - now rewrite String.eqb_refl.
  - destruct (String.eqb k0 k) eqn:E; cbn [dict_store].
    + now rewrite String.eqb_refl.
    + now rewrite E, IH.
Qed.

Lemma dict_store_keeps_keys (d : dict) (k : string) (v : json) :
  dict_lookup d k <> None -> map fst (dict_store d k v) = map fst d.
Proof.
  induction d as [|[k0 v0] d IH]; cbn [dict_store dict_lookup map fst].
  - intros H. now elim H.
  - destruct (String.eqb_spec k0 k) as [->|Hne]; cbn [map fst].
    + reflexivity.
    + intros H. now rewrite IH.
Qed.

Lemma all_chars_app (p : ascii -> bool) (a b : string) :
  all_chars p (a ++ b) = all_chars p a && all_chars p b.
Proof.
  unfold all_chars. now rewrite list_ascii_of_string_app, forallb_app.
Qed.

Lemma all_digits_all_chars (ch : string) :
  all_digits ch = true -> all_chars isdigit ch = true.
Proof.
  unfold all_digits, all_chars. now destruct ch.
Qed.

(** What the generator of line 176 joins is made of digits. *)
Lemma join_digit_items_digits (items : list json) (s : string) :
  join_digit_items items = Ok s -> all_chars isdigit s = true.
Proof.
  revert s. induction items as [|item items IH]; intros s H.
  - injection H as <-. reflexivity.
  - cbn [join_digit_items] in H.
    destruct item as [| | | |ch| |]; try discriminate H.
    destruct (join_digit_items items) as [tail|e]; [|discriminate H].
    cbn [Py.bind] in H. specialize (IH tail eq_refl).
    destruct (all_digits ch) eqn:E; injection H as <-; [|exact IH].
    rewrite all_chars_app, IH. now rewrite (all_digits_all_chars ch E).
Qed.

Lemma join_digit_items_exn (items : list json) (e : exn) :
  join_digit_items items = Raise e -> e = AttributeError.
Proof.
  induction items as [|item items IH]; cbn [join_digit_items]; [discriminate|].
  destruct item as [| | | |ch| |]; try (intros H; now injection H as <-).
  destruct (join_digit_items items) as [tail|e']; cbn [Py.bind]; [discriminate|].
  intros H. injection H as ->. now apply IH.
Qed.

Lemma filter_chars_all (p : ascii -> bool) (s : string) :
  all_chars p s = true -> filter_chars p s = s.
Proof.
  unfold all_chars. induction s as [|c s IH]; cbn [list_ascii_of_string forallb filter_chars].
  - reflexivity.
  - intros H. apply andb_true_iff in H. destruct H as [Hc Hs].
    now rewrite Hc, IH.
Qed.

Lemma all_chars_substring (p : ascii -> bool) (n : nat) (s : string) :
  all_chars p s = true -> all_chars p (substring 0 n s) = true.
Proof.
  unfold all_chars. revert n.
  induction s as [|c s IH]; intros [|n] H; cbn [substring list_ascii_of_string forallb] in *;
    try reflexivity.
  apply andb_true_iff in H. destruct H as [Hc Hs]. now rewrite Hc, IH.
Qed.

Lemma length_substring_le (n : nat) (s : string) :
  (String.length (substring 0 n s) <= n)%nat.
Proof.
  revert n. induction s as [|c s IH]; intros [|n]; cbn [substring String.length]; try lia.
  specialize (IH n). lia.
Qed.

(** What [post_process] returns for a record of a passport. *)
Lemma post_process_passport (d : dict) (item' : json) :
  dict_lookup d "id_type" = Some (JStr "passport") ->
  post_process (JObj d) = Ok item' ->
  exists s,
    item' = JObj (dict_store d "id_number" (JStr s))
    /\ (String.length s <= 9)%nat
    /\ all_chars isdigit s = true.
Proof.
  intros Htype H. unfold post_process, get in H. rewrite Htype in H.
  cbn [Py.bind] in H. change (eq_str (JStr "passport") "passport") with true in H.
  cbv iota in H.
  destruct (digits_of _) as [ds|e] eqn:Hds; [|discriminate H].
  cbn [Py.bind setitem] in H. injection H as <-.
  rewrite slice_str_to_9.
  exists (substring 0 9 ds). split; [reflexivity|]. split; [apply length_substring_le|].
  apply all_chars_substring.
  unfold digits_of in Hds. destruct (iter _) as [items|e]; [|discriminate Hds].
  cbn [Py.bind] in Hds. now apply join_digit_items_digits in Hds.
Qed.

(** X11: the record of a passport that comes out of the post-processing has
    an [id_number] of at most nine characters, all of them digits; its
    other fields are as they were, and so are the order and the number
    of its keys when it had an [id_number]. *)
Theorem post_processed_passport_has_at_most_9_digits (d : dict) (item' : json) :
  dict_lookup d "id_type" = Some (JStr "passport") ->
  post_process (JObj d) = Ok item' ->
  exists (d' : dict) (s : string),
    item' = JObj d'
    /\ dict_lookup d' "id_number" = Some (JStr s)
    /\ (String.length s <= 9)%nat
    /\ all_chars isdigit s = true
    /\ (forall k, k <> "id_number" -> dict_lookup d' k = dict_lookup d k)
    /\ (dict_lookup d "id_number" <> None -> map fst d' = map fst d).
Proof.
  intros Htype H.
  destruct (post_process_passport d item' Htype H) as (s & -> & Hlen & Hdig).
  exists (dict_store d "id_number" (JStr s)), s. repeat apply conj; try assumption.
  - reflexivity.
  - apply dict_lookup_store_same.
  - intros k Hk. now apply dict_lookup_store_other.
  - apply dict_store_keeps_keys.
Qed.

Lemma post_processed_passport_has_at_most_9_digits_witness :
  exists (d' : dict) (s : string),
    post_process MoreSamples.passport_record = Ok (JObj d')
    /\ dict_lookup d' "id_number" = Some (JStr s)
    /\ (String.length s <= 9)%nat
    /\ dict_lookup d' "id_type" = Some (JStr "passport").
Proof.
  destruct (post_processed_passport_has_at_most_9_digits
              [("id_type", JStr "passport"); ("id_number", JStr "P-12 34A5678B90")]
              (JObj [("id_type", JStr "passport"); ("id_number", JStr "123456789")])
              eq_refl eq_refl)
    as (d' & s & E & Hnum & Hlen & _ & Hother & _).
  exists d', s. rewrite <- E. repeat split; try assumption.
  now rewrite Hother.
Defined.

(** X12: post-processing a record a second time changes nothing. *)
Theorem post_process_is_idempotent (item item' : json) :
  post_process item = Ok item' -> post_process item' = Ok item'.
Proof.
  intros H.
  destruct item as [| | | | | |d]; try discriminate H.
  destruct (eq_str (match dict_lookup d "id_type" with Some x => x | None => JNull end)
              "passport") eqn:Ep.
  - assert (Htype : dict_lookup d "id_type" = Some (JStr "passport")).
    { destruct (dict_lookup d "id_type") as [v|]; [|discriminate Ep].
      destruct v as [| | | |t| |]; try discriminate Ep.
      unfold eq_str, is_str in Ep. apply String.eqb_eq in Ep. now subst t. }
    destruct (post_process_passport d item' Htype H) as (s & -> & Hlen & Hdig).
    unfold post_process, get.
    rewrite dict_lookup_store_other, Htype by discriminate.
    cbn [Py.bind]. change (eq_str (JStr "passport") "passport") with true. cbv iota.
    rewrite dict_lookup_store_same, digits_of_str. cbn [Py.bind setitem].
    rewrite slice_str_to_9, dict_store_store.
    now rewrite (filter_chars_all _ _ Hdig), substring_short.
  - unfold post_process, get in H. cbn [Py.bind] in H. rewrite Ep in H.
    injection H as <-.
    unfold post_process, get. cbn [Py.bind]. now rewrite Ep.
Qed.

Lemma post_process_is_idempotent_witness :
  post_process (JObj [("id_type", JStr "passport"); ("id_number", JStr "123456789")])
  = Ok (JObj [("id_type", JStr "passport"); ("id_number", JStr "123456789")]).
Proof.
  exact (post_process_is_idempotent MoreSamples.passport_record _ eq_refl).
Defined.

Lemma post_process_raises (item : json) (e : exn) :
  post_process item = Raise e -> e = AttributeError \/ e = TypeError.
Proof.
  intros H. destruct item as [| | | | | |d];
    try (injection H as <-; now left).
  unfold post_process, get in H. cbn [Py.bind] in H.
  destruct (eq_str _ "passport"); [|discriminate H].
  destruct (digits_of _) as [ds|e'] eqn:Hds; [discriminate H|].
  cbn [Py.bind] in H. injection H as ->.
  unfold digits_of in Hds. destruct (iter _) as [items|e''] eqn:Hit.
  - cbn [Py.bind] in Hds. left. now apply join_digit_items_exn in Hds.
  - cbn [Py.bind] in Hds. injection Hds as ->. right.
    destruct (match dict_lookup d "id_number" with Some x => x | None => JStr "" end);
      cbn [iter] in Hit; congruence.
Qed.

(** X13: the post-processing raises [AttributeError] or [TypeError] and
    nothing else, so that neither [except] clause of the script catches
    it: [AttributeError] for an item that is not an object, [TypeError]
    for a passport whose [id_number] is [null], a boolean or a number. *)
Theorem post_process_failures (item : json) :
  (forall e, post_process item = Raise e -> e = AttributeError \/ e = TypeError)
  /\ (not_a_dict item -> post_process item = Raise AttributeError)
  /\ (forall d v,
        item = JObj d ->
        dict_lookup d "id_type" = Some (JStr "passport") ->
        dict_lookup d "id_number" = Some v ->
        not_iterable v ->
        post_process item = Raise TypeError).
Proof.
  repeat apply conj.
  - apply post_process_raises.
  - intros H. destruct item; cbn in H; try reflexivity. contradiction.
  - intros d v -> Htype Hnum Hv. unfold post_process, get. rewrite Htype, Hnum.
    cbn [Py.bind]. change (eq_str (JStr "passport") "passport") with true. cbv iota.
    destruct v; cbn in Hv; try contradiction; reflexivity.
Qed.

Lemma post_process_failures_witness :
  post_process (JStr "id_type") = Raise AttributeError
  /\ post_process MoreSamples.bad_record = Raise TypeError.
Proof.
  split.
  - now apply (proj1 (proj2 (post_process_failures (JStr "id_type")))).
  - now apply (proj2 (proj2 (post_process_failures MoreSamples.bad_record))
                 [("id_type", JStr "passport"); ("id_number", JInt 123456789)]
                 (JInt 123456789)).
Defined.

(** *** The round trip through a pair of fences *)

Lemma splitlines_of_closed_text_not_empty (x : string) :
  lf_only x = true ->
  forall cur, splitlines_from false cur (x ++ String LF EmptyString) <> [].
Proof.
  unfold lf_only.
  induction x as [|c x IH]; intros H cur; cbn [append splitlines_from andb].
  - cbn. discriminate.
  - cbn [list_ascii_of_string forallb] in H. apply andb_true_iff in H.
    destruct H as [Hc Hx].
    destruct (is_linebreak c); [discriminate | now apply IH].
Qed.

Lemma join_splitlines_lf_only (x : string) :
  lf_only x = true ->
  forall cur,
    join nl (splitlines_from false cur (x ++ String LF EmptyString)) =
    string_of_list_ascii (rev cur) ++ x.
Proof.
  unfold lf_only.
  induction x as [|c x IH]; intros H cur.
  - cbn. now rewrite append_nil_r.
  - cbn [list_ascii_of_string forallb] in H. apply andb_true_iff in H.
    destruct H as [Hc Hx].
    cbn [append splitlines_from andb].
    destruct (is_linebreak c) eqn:Eb.
    + cbn [negb orb] in Hc. apply Ascii.eqb_eq in Hc. subst c.
      change (Ascii.eqb LF CR) with false.
      pose proof (splitlines_of_closed_text_not_empty x Hx []) as Hne.
      pose proof (IH Hx []) as IH'.
      destruct (splitlines_from false [] (x ++ String LF EmptyString)) as [|l ls];
        [now elim Hne|].
      unfold join in *. cbn [concat]. cbn [concat] in IH'. rewrite IH'.
      reflexivity.
    + rewrite (IH Hx). cbn [rev]. rewrite string_of_list_ascii_app.
      now rewrite append_assoc.
Qed.

(** X14: a body whose lines end with line feeds, put between a fence
    line and a closing fence, comes back as it was, up to the white
    space around it. *)
Theorem fenced_reply_round_trip (lang body : string) :
  no_linebreak lang ->
  lf_only body = true ->
  content_str (JStr (fence ++ lang ++ nl ++ body ++ nl ++ fence)) = Ok (PyStr.strip body).
Proof.
  intros Hlang Hbody. rewrite content_str_of_fenced_reply by assumption.
  unfold splitlines. unfold nl at 2.
  now rewrite join_splitlines_lf_only.
Qed.

Lemma fenced_reply_round_trip_witness :
  content_str (JStr ("```json" ++ nl ++ "[" ++ nl ++ "  {}" ++ nl ++ "]" ++ nl ++ "```"))
  = Ok ("[" ++ nl ++ "  {}" ++ nl ++ "]").
Proof.
  exact (fenced_reply_round_trip "json" ("[" ++ nl ++ "  {}" ++ nl ++ "]")
           eq_refl eq_refl).
Defined.

End PostProcessFacts.

(* ================================================================= *)
(** ** The outcomes of a run with status 200 *)

Section ExtractOutcomes.

Import PyStr PyFloat PyList PyJson Extract Notions.

Context {ext : Extern}.

Lemma usage_and_statistics_spec (response_json : json) (usage : dict) (n : Z)
  (d a : float) (so re : string) (op : list string) (gl : dict) :
  get response_json "usage" (JObj []) = Ok (JObj usage) ->
  usage_and_statistics response_json n d a
    {| stdout := so; results := Some re; opened := op; globals := gl |} =
  (Ok tt,
   {| stdout := so;
      results :=
        Some (re ++ statistics_text n d a
                      (field_or usage "prompt_tokens" (JInt 0))
                      (field_or usage "completion_tokens" (JInt 0))
                      (field_or usage "total_tokens" (JInt 0)));
      opened := op;
      globals :=
        dict_store
          (dict_store
             (dict_store gl "prompt_tokens" (field_or usage "prompt_tokens" (JInt 0)))
             "completion_tokens" (field_or usage "completion_tokens" (JInt 0)))
          "total_tokens" (field_or usage "total_tokens" (JInt 0)) |}).
Proof.
  intros Husage. unfold usage_and_statistics.
  unfold seq at 1. unfold lift at 1. rewrite Husage.
  unfold get, seq, lift. rewrite !store_name_spec.
  now rewrite write_statistics_spec.
Qed.

Lemma usage_and_statistics_not_a_dict (response_json v : json) (n : Z)
  (d a : float) (w : world) :
  get response_json "usage" (JObj []) = Ok v ->
  not_a_dict v ->
  usage_and_statistics response_json n d a w = (Raise AttributeError, w).
Proof.
  intros Husage Hv. unfold usage_and_statistics.
  unfold seq at 1. unfold lift at 1. rewrite Husage.
  unfold seq at 1. unfold lift at 1.
  destruct v; cbn in Hv; try contradiction; reflexivity.
Qed.

(** The branch of status 200 for an envelope with a reply: what the
    parsing of the reply leaves, and then the usage and the statistics. *)
Lemma on_status_200_with_reply (r : response) (n : Z) (d a : float)
  (response_json : json) (reply : string) (w w1 w2 : world) (res : result unit) :
  json_body r = Some response_json ->
  message_content response_json = Ok (JStr reply) ->
  parse_and_write (remove_fences (PyStr.strip reply)) w = (Ok tt, w1) ->
  usage_and_statistics response_json n d a w1 = (res, w2) ->
  res <> Raise JSONDecodeError ->
  on_status_200 r n d a w = (res, w2).
Proof.
  intros Hbody Hcontent Hparse Htail Hres.
  destruct (message_content_ok _ _ Hcontent) as (choices & Hin & Hget & Htrue).
  unfold on_status_200, try_except_JSONDecodeError.
  unfold seq at 1. unfold lift at 1. rewrite Hbody.
  unfold seq at 1. unfold lift at 1. rewrite Hin.
  unfold seq at 1. cbn [negb]. unfold seq at 1. unfold lift at 1. rewrite Hget.
  unfold ret at 1. rewrite Htrue. cbn [negb].
  unfold seq at 1. unfold seq at 1. unfold lift at 1. rewrite Hcontent.
  unfold seq at 1. unfold lift at 1.
  unfold content_str. cbn [PyJson.strip Py.bind].
  rewrite Hparse.
  change (usage_and_statistics response_json n d a w1) with
    (usage_and_statistics response_json n d a w1) in Htail.
  unfold usage_and_statistics in Htail. rewrite Htail.
  destruct res as [[]|e]; [reflexivity|].
  destruct e; try reflexivity. now elim Hres.
Qed.

Lemma on_status_200_reply_raises (r : response) (n : Z) (d a : float)
  (response_json : json) (reply : string) (w w1 : world) (e : exn) :
  json_body r = Some response_json ->
  message_content response_json = Ok (JStr reply) ->
  parse_and_write (remove_fences (PyStr.strip reply)) w = (Raise e, w1) ->
  e <> JSONDecodeError ->
  on_status_200 r n d a w = (Raise e, w1).
Proof.
  intros Hbody Hcontent Hparse He.
  destruct (message_content_ok _ _ Hcontent) as (choices & Hin & Hget & Htrue).
  unfold on_status_200, try_except_JSONDecodeError.
  unfold seq at 1. unfold lift at 1. rewrite Hbody.
  unfold seq at 1. unfold lift at 1. rewrite Hin.
  unfold seq at 1. cbn [negb]. unfold seq at 1. unfold lift at 1. rewrite Hget.
  unfold ret at 1. rewrite Htrue. cbn [negb].
  unfold seq at 1. unfold seq at 1. unfold lift at 1. rewrite Hcontent.
  unfold seq at 1. unfold lift at 1.
  unfold content_str. cbn [PyJson.strip Py.bind].
  rewrite Hparse.
  destruct e; try reflexivity. now elim He.
Qed.

Lemma after_response_status_200 (r : response) (n : Z) (so : string)
  (re : option string) (op : list string) (gl : dict) :
  status_code r = 200 ->
  after_response r n {| stdout := so; results := re; opened := op; globals := gl |} =
  seq (on_status_200 r n duration_ms (average_ms_per_image n))
      (fun _ => report n duration_ms (average_ms_per_image n))
      {| stdout := so; results := Some ""; opened := op; globals := gl |}.
Proof.
  intros Hstatus. unfold after_response, handle_response.
  unfold seq at 2. unfold open_results.
  cbn [stdout results opened globals]. rewrite Hstatus. reflexivity.
Qed.

(** *** The loop over the items *)

Lemma concat_empty_cons (x : string) (l : list string) :
  concat "" (x :: l) = x ++ concat "" l.
Proof.
  destruct l; cbn [concat]; [now rewrite append_nil_r | reflexivity].
Qed.

Lemma write_records_all (items : list json) :
  forall (items' : list json) (so re : string) (op : list string) (gl : dict),
    post_process_all items = Ok items' ->
    write_records items
      {| stdout := so; results := Some re; opened := op; globals := gl |} =
    (Ok items',
     {| stdout := so; results := Some (re ++ concat "" (map record_text items'));
        opened := op; globals := gl |}).
Proof.
  induction items as [|item items IH]; intros items' so re op gl H.
  - injection H as <-. cbn. now rewrite append_nil_r.
  - cbn [post_process_all] in H.
    destruct (post_process item) as [item1|e] eqn:Hitem; [|discriminate H].
    destruct (post_process_all items) as [rest1|e]; [|discriminate H].
    cbn [Py.bind] in H. injection H as <-.
    rewrite (write_records_emits item item1 items so re op gl Hitem).
    unfold seq at 1. rewrite (IH rest1 _ _ _ _ eq_refl).
    unfold ret. f_equal. f_equal. f_equal.
    cbn [map]. now rewrite concat_empty_cons, append_assoc.
Qed.

Lemma write_records_stops (pre post : list json) (bad : json) (e : exn) :
  forall (pre' : list json) (so re : string) (op : list string) (gl : dict),
    post_process_all pre = Ok pre' ->
    post_process bad = Raise e ->
    write_records (pre ++ bad :: post)
      {| stdout := so; results := Some re; opened := op; globals := gl |} =
    (Raise e,
     {| stdout := so; results := Some (re ++ concat "" (map record_text pre'));
        opened := op; globals := gl |}).
Proof.
  induction pre as [|item pre IH]; intros pre' so re op gl Hpre Hbad.
  - injection Hpre as <-. cbn [app write_records]. unfold seq at 1, lift.
    rewrite Hbad. cbn. now rewrite append_nil_r.
  - cbn [post_process_all] in Hpre.
    destruct (post_process item) as [item1|e1] eqn:Hitem; [|discriminate Hpre].
    destruct (post_process_all pre) as [rest1|e1]; [|discriminate Hpre].
    cbn [Py.bind] in Hpre. injection Hpre as <-.
    cbn [app].
    rewrite (write_records_emits item item1 (pre ++ bad :: post) so re op gl Hitem).
    unfold seq at 1. rewrite (IH rest1 _ _ _ _ eq_refl Hbad).
    f_equal. f_equal. f_equal.
    cbn [map]. now rewrite concat_empty_cons, append_assoc.
Qed.

Lemma parse_and_write_valid (text : string) (extracted_batch : json)
  (items items' : list json) (so re : string) (op : list string) (gl : dict) :
  json_loads text = Some extracted_batch ->
  iter extracted_batch = Ok items ->
  post_process_all items = Ok items' ->
  parse_and_write text
    {| stdout := so; results := Some re; opened := op; globals := gl |} =
  (Ok tt,
   {| stdout := (so ++ saved_text ++ nl)
                ++ parsed_text (with_items extracted_batch items') ++ nl;
      results := Some (re ++ concat "" (map record_text items'));
      opened := op; globals := gl |}).
Proof.
  intros Hloads Hiter Hall.
  unfold parse_and_write, try_except_JSONDecodeError.
  unfold seq at 1. unfold lift at 1. unfold loads. rewrite Hloads.
  unfold seq at 1. unfold lift at 1. rewrite Hiter.
  unfold seq at 1. rewrite (write_records_all items items' _ _ _ _ Hall).
  unfold seq. rewrite !print_spec. reflexivity.
Qed.

Lemma parse_and_write_stops (text : string) (extracted_batch : json)
  (pre post pre' : list json) (bad : json) (e : exn)
  (so re : string) (op : list string) (gl : dict) :
  json_loads text = Some extracted_batch ->
  iter extracted_batch = Ok (pre ++ bad :: post)%list ->
  post_process_all pre = Ok pre' ->
  post_process bad = Raise e ->
  parse_and_write text
    {| stdout := so; results := Some re; opened := op; globals := gl |} =
  (Raise e,
   {| stdout := so; results := Some (re ++ concat "" (map record_text pre'));
      opened := op; globals := gl |}).
Proof.
  intros Hloads Hiter Hpre Hbad.
  unfold parse_and_write, try_except_JSONDecodeError.
  unfold seq at 1. unfold lift at 1. unfold loads. rewrite Hloads.
  unfold seq at 1. unfold lift at 1. rewrite Hiter.
  unfold seq at 1. rewrite (write_records_stops pre post bad e pre' _ _ _ _ Hpre Hbad).
  destruct (post_process_raises bad e Hbad) as [->| ->]; reflexivity.
Qed.

End ExtractOutcomes.

Section ExtractRuns.

Import PyStr PyFloat PyList PyJson Extract Notions.

Context {ext : Extern}.

(** X15: when the reply is valid JSON and every item of it can be
    post-processed, the results file holds the dump of each item as the
    post-processing leaves it, one after the other in the order of the
    reply, each followed by an empty line, and then the statistics; the
    console shows the same items. *)
Theorem valid_reply_writes_the_records_in_order (listdir : list string)
  (key endpoint : string) (r : response) (response_json : json) (usage : dict)
  (reply : string) (extracted_batch : json) (items items' : list json) :
  nonempty (getenv "FIREWORKS_API_KEY") = Some key ->
  nonempty (getenv "FIREWORKS_ENDPOINT") = Some endpoint ->
  image_files listdir <> [] ->
  (forall url hs body, requests_post url hs body = Ok r) ->
  status_code r = 200 ->
  json_body r = Some response_json ->
  message_content response_json = Ok (JStr reply) ->
  get response_json "usage" (JObj []) = Ok (JObj usage) ->
  json_loads (remove_fences (PyStr.strip reply)) = Some extracted_batch ->
  iter extracted_batch = Ok items ->
  post_process_all items = Ok items' ->
  let n := Z.of_nat (List.length (image_files listdir)) in
  let prompt_tokens := field_or usage "prompt_tokens" (JInt 0) in
  let completion_tokens := field_or usage "completion_tokens" (JInt 0) in
  let total_tokens := field_or usage "total_tokens" (JInt 0) in
  run listdir =
  (Ok tt,
   {| stdout :=
        ((preamble ++ saved_text ++ nl)
         ++ parsed_text (with_items extracted_batch items') ++ nl)
        ++ report_text n duration_ms (average_ms_per_image n)
             prompt_tokens completion_tokens total_tokens;
      results :=
        Some (concat "" (map record_text items')
              ++ statistics_text n duration_ms (average_ms_per_image n)
                   prompt_tokens completion_tokens total_tokens);
      opened := rev (map image_path (image_files listdir));
      globals := [("prompt_tokens", prompt_tokens);
                  ("completion_tokens", completion_tokens);
                  ("total_tokens", total_tokens)] |}).
Proof.
  intros Hkey Hend Hfiles Hpost Hstatus Hbody Hcontent Husage Hloads Hiter Hall n p c t.
  rewrite (run_reaches_response listdir key endpoint r Hkey Hend Hfiles Hpost).
  fold n. rewrite (after_response_status_200 r n _ _ _ _ Hstatus).
  unfold seq at 1.
  rewrite (on_status_200_with_reply r n _ _ response_json reply _ _ _ _
             Hbody Hcontent
             (parse_and_write_valid _ _ _ _ _ _ _ _ Hloads Hiter Hall)
             (usage_and_statistics_spec response_json usage n _ _ _ _ _ _ Husage)
             ltac:(discriminate)).
  fold p c t. apply report_spec; reflexivity.
Qed.

(** X16: when an item of the reply cannot be post-processed, the run ends
    there with the exception of that item: the results file holds the
    items before it and nothing else, and the statistics are neither
    written nor printed. *)
Theorem failing_item_ends_the_run (listdir : list string)
  (key endpoint : string) (r : response) (response_json : json)
  (reply : string) (extracted_batch : json) (pre post pre' : list json)
  (bad : json) (e : exn) :
  nonempty (getenv "FIREWORKS_API_KEY") = Some key ->
  nonempty (getenv "FIREWORKS_ENDPOINT") = Some endpoint ->
  image_files listdir <> [] ->
  (forall url hs body, requests_post url hs body = Ok r) ->
  status_code r = 200 ->
  json_body r = Some response_json ->
  message_content response_json = Ok (JStr reply) ->
  json_loads (remove_fences (PyStr.strip reply)) = Some extracted_batch ->
  iter extracted_batch = Ok (pre ++ bad :: post)%list ->
  post_process_all pre = Ok pre' ->
  post_process bad = Raise e ->
  run listdir =
  (Raise e,
   {| stdout := preamble;
      results := Some (concat "" (map record_text pre'));
      opened := rev (map image_path (image_files listdir));
      globals := [] |}).
Proof.
  intros Hkey Hend Hfiles Hpost Hstatus Hbody Hcontent Hloads Hiter Hpre Hbad.
  rewrite (run_reaches_response listdir key endpoint r Hkey Hend Hfiles Hpost).
  rewrite (after_response_status_200 r _ _ _ _ _ Hstatus).
  unfold seq at 1.
  rewrite (on_status_200_reply_raises r _ _ _ response_json reply _ _ e
             Hbody Hcontent
             (parse_and_write_stops _ _ _ _ _ _ _ _ _ _ _ Hloads Hiter Hpre Hbad)).
  - reflexivity.
  - destruct (post_process_raises bad e Hbad) as [->| ->]; discriminate.
Qed.

(** X17: when the usage of the envelope is there but is not an object, the
    run ends with [AttributeError] after the reply has been dealt with:
    for a reply that is not valid JSON the results file holds the note
    and no statistics. *)
Theorem usage_that_is_not_an_object_ends_the_run (listdir : list string)
  (key endpoint : string) (r : response) (response_json v : json) (reply : string) :
  nonempty (getenv "FIREWORKS_API_KEY") = Some key ->
  nonempty (getenv "FIREWORKS_ENDPOINT") = Some endpoint ->
  image_files listdir <> [] ->
  (forall url hs body, requests_post url hs body = Ok r) ->
  status_code r = 200 ->
  json_body r = Some response_json ->
  message_content response_json = Ok (JStr reply) ->
  get response_json "usage" (JObj []) = Ok v ->
  not_a_dict v ->
  json_loads (remove_fences (PyStr.strip reply)) = None ->
  run listdir =
  (Raise AttributeError,
   {| stdout :=
        preamble
        ++ "The assistant response was not valid JSON even after removing code fences." ++ nl;
      results := Some ("The assistant response was not valid JSON." ++ nl);
      opened := rev (map image_path (image_files listdir));
      globals := [] |}).
Proof.
  intros Hkey Hend Hfiles Hpost Hstatus Hbody Hcontent Husage Hv Hbad.
  rewrite (run_reaches_response listdir key endpoint r Hkey Hend Hfiles Hpost).
  rewrite (after_response_status_200 r _ _ _ _ _ Hstatus).
  unfold seq at 1.
  rewrite (on_status_200_with_reply r _ _ _ response_json reply _ _ _ _
             Hbody Hcontent
             (parse_and_write_invalid _ _ _ _ _ Hbad)
             (usage_and_statistics_not_a_dict response_json v _ _ _ _ Husage Hv)
             ltac:(discriminate)).
  reflexivity.
Qed.

(** X18: when the envelope has no "choices", or has one that is empty, the
    run prints that no valid content was found and still writes and
    prints the statistics; the results file holds nothing else. *)
Theorem envelope_without_choices_gives_statistics_only (listdir : list string)
  (key endpoint : string) (r : response) (response_json : json) (usage : dict) :
  nonempty (getenv "FIREWORKS_API_KEY") = Some key ->
  nonempty (getenv "FIREWORKS_ENDPOINT") = Some endpoint ->
  image_files listdir <> [] ->
  (forall url hs body, requests_post url hs body = Ok r) ->
  status_code r = 200 ->
  json_body r = Some response_json ->
  (contains_key "choices" response_json = Ok false \/
   exists choices, contains_key "choices" response_json = Ok true /\
                   getitem_key response_json "choices" = Ok choices /\
                   truthy choices = false) ->
  get response_json "usage" (JObj []) = Ok (JObj usage) ->
  let n := Z.of_nat (List.length (image_files listdir)) in
  let prompt_tokens := field_or usage "prompt_tokens" (JInt 0) in
  let completion_tokens := field_or usage "completion_tokens" (JInt 0) in
  let total_tokens := field_or usage "total_tokens" (JInt 0) in
  run listdir =
  (Ok tt,
   {| stdout :=
        (preamble ++ "No valid content found in the response." ++ nl)
        ++ report_text n duration_ms (average_ms_per_image n)
             prompt_tokens completion_tokens total_tokens;
      results :=
        Some (statistics_text n duration_ms (average_ms_per_image n)
                prompt_tokens completion_tokens total_tokens);
      opened := rev (map image_path (image_files listdir));
      globals := [("prompt_tokens", prompt_tokens);
                  ("completion_tokens", completion_tokens);
                  ("total_tokens", total_tokens)] |}).
Proof.
  intros Hkey Hend Hfiles Hpost Hstatus Hbody Hno Husage n p c t.
  rewrite (run_reaches_response listdir key endpoint r Hkey Hend Hfiles Hpost).
  fold n. rewrite (after_response_status_200 r n _ _ _ _ Hstatus).
  unfold seq at 1.
  assert (E : forall so op,
             on_status_200 r n duration_ms (average_ms_per_image n)
               {| stdout := so; results := Some ""; opened := op; globals := [] |} =
             usage_and_statistics response_json n duration_ms (average_ms_per_image n)
               {| stdout := so ++ "No valid content found in the response." ++ nl;
                  results := Some ""; opened := op; globals := [] |}).
  { intros so op. rewrite (usage_and_statistics_spec _ usage _ _ _ _ _ _ _ Husage).
    unfold on_status_200, try_except_JSONDecodeError.
    unfold seq at 1. unfold lift at 1. rewrite Hbody.
    unfold seq at 1. unfold lift at 1.
    destruct Hno as [Hin|(choices & Hin & Hget & Hfalse)]; rewrite Hin.
    - unfold seq at 1. cbn [negb]. unfold ret at 1.
      unfold seq at 1. rewrite print_spec.
      fold (usage_and_statistics response_json n duration_ms (average_ms_per_image n)).
      now rewrite (usage_and_statistics_spec _ usage _ _ _ _ _ _ _ Husage).
    - unfold seq at 1. cbn [negb]. unfold seq at 1. unfold lift at 1. rewrite Hget.
      unfold ret at 1. rewrite Hfalse. cbn [negb].
      unfold seq at 1. rewrite print_spec.
      fold (usage_and_statistics response_json n duration_ms (average_ms_per_image n)).
      now rewrite (usage_and_statistics_spec _ usage _ _ _ _ _ _ _ Husage). }
  rewrite E, (usage_and_statistics_spec _ usage _ _ _ _ _ _ _ Husage).
  fold p c t. apply report_spec; reflexivity.
Qed.

End ExtractRuns.

Lemma unparsable_body_zeroes_counters_witness :
  fst (Extract.run (ext := MoreSamples.http_with MoreSamples.not_json_body) ["a.jpg"]) = Ok tt
  /\ Extract.results
       (snd (Extract.run (ext := MoreSamples.http_with MoreSamples.not_json_body) ["a.jpg"]))
     = Some ("Error: Unable to parse response as JSON." ++ PyStr.nl)
  /\ Extract.globals
       (snd (Extract.run (ext := MoreSamples.http_with MoreSamples.not_json_body) ["a.jpg"]))
     = [("prompt_tokens", PyJson.JInt 0); ("completion_tokens", PyJson.JInt 0);
        ("total_tokens", PyJson.JInt 0)].
Proof.
  rewrite (unparsable_body_zeroes_counters
             (ext := MoreSamples.http_with MoreSamples.not_json_body)
             ["a.jpg"] "key" "https://example.invalid/v1" MoreSamples.not_json_body
             eq_refl eq_refl ltac:(discriminate) ltac:(reflexivity) eq_refl eq_refl).
  repeat split.
Defined.

Lemma valid_reply_writes_the_records_in_order_witness :
  fst (Extract.run (ext := MoreSamples.http_with (Sample.answer "two records"))
         ["a.jpg"; "b.jpg"]) = Ok tt
  /\ Extract.results
       (snd (Extract.run (ext := MoreSamples.http_with (Sample.answer "two records"))
               ["a.jpg"; "b.jpg"]))
     = Some (("{passport}" ++ PyStr.nl ++ PyStr.nl)
             ++ ("{drivers_license}" ++ PyStr.nl ++ PyStr.nl)
             ++ Extract.statistics_text
                  (ext := MoreSamples.http_with (Sample.answer "two records"))
                  2 2500%float 1250%float (PyJson.JInt 1200) (PyJson.JInt 34)
                  (PyJson.JInt 1234)).
Proof.
  rewrite (valid_reply_writes_the_records_in_order
             (ext := MoreSamples.http_with (Sample.answer "two records"))
             ["a.jpg"; "b.jpg"] "key" "https://example.invalid/v1"
             (Sample.answer "two records") (Sample.envelope "two records")
             [("prompt_tokens", PyJson.JInt 1200);
              ("completion_tokens", PyJson.JInt 34);
              ("total_tokens", PyJson.JInt 1234)]
             "two records"
             (PyJson.JArr [MoreSamples.passport_record; MoreSamples.license_record])
             [MoreSamples.passport_record; MoreSamples.license_record]
             [PyJson.JObj [("id_type", PyJson.JStr "passport");
                           ("id_number", PyJson.JStr "123456789")];
              MoreSamples.license_record]
             eq_refl eq_refl ltac:(discriminate) ltac:(reflexivity)
             eq_refl eq_refl eq_refl eq_refl eq_refl eq_refl eq_refl).
  split; reflexivity.
Defined.

Lemma failing_item_ends_the_run_witness :
  (fst (Extract.run (ext := MoreSamples.http_with (Sample.answer "bad second"))
          ["a.jpg"]) = Raise TypeError
   /\ Extract.results
        (snd (Extract.run (ext := MoreSamples.http_with (Sample.answer "bad second"))
                ["a.jpg"]))
      = Some ("{drivers_license}" ++ PyStr.nl ++ PyStr.nl))
  /\ (fst (Extract.run (ext := MoreSamples.http_with (Sample.answer "one object"))
             ["a.jpg"]) = Raise AttributeError
      /\ Extract.results
           (snd (Extract.run (ext := MoreSamples.http_with (Sample.answer "one object"))
                   ["a.jpg"]))
         = Some "").
Proof.
  split.
  - rewrite (failing_item_ends_the_run
               (ext := MoreSamples.http_with (Sample.answer "bad second"))
               ["a.jpg"] "key" "https://example.invalid/v1"
               (Sample.answer "bad second") (Sample.envelope "bad second")
               "bad second"
               (PyJson.JArr [MoreSamples.license_record; MoreSamples.bad_record;
                             MoreSamples.passport_record])
               [MoreSamples.license_record] [MoreSamples.passport_record]
               [MoreSamples.license_record] MoreSamples.bad_record TypeError
               eq_refl eq_refl ltac:(discriminate) ltac:(reflexivity)
               eq_refl eq_refl eq_refl eq_refl eq_refl eq_refl eq_refl).
    split; reflexivity.
  - rewrite (failing_item_ends_the_run
               (ext := MoreSamples.http_with (Sample.answer "one object"))
               ["a.jpg"] "key" "https://example.invalid/v1"
               (Sample.answer "one object") (Sample.envelope "one object")
               "one object" MoreSamples.passport_record
               [] [PyJson.JStr "id_number"] [] (PyJson.JStr "id_type") AttributeError
               eq_refl eq_refl ltac:(discriminate) ltac:(reflexivity)
               eq_refl eq_refl eq_refl eq_refl eq_refl eq_refl eq_refl).
    split; reflexivity.
Defined.

Lemma usage_that_is_not_an_object_ends_the_run_witness :
  fst (Extract.run (ext := MoreSamples.http_with (MoreSamples.null_usage "not json"))
         ["a.jpg"]) = Raise AttributeError
  /\ Extract.results
       (snd (Extract.run (ext := MoreSamples.http_with (MoreSamples.null_usage "not json"))
               ["a.jpg"]))
     = Some ("The assistant response was not valid JSON." ++ PyStr.nl).
Proof.
  rewrite (usage_that_is_not_an_object_ends_the_run
             (ext := MoreSamples.http_with (MoreSamples.null_usage "not json"))
             ["a.jpg"] "key" "https://example.invalid/v1"
             (MoreSamples.null_usage "not json")
             (PyJson.JObj
                [("choices",
                  PyJson.JArr
                    [PyJson.JObj
                       [("message", PyJson.JObj [("content", PyJson.JStr "not json")])]]);
                 ("usage", PyJson.JNull)])
             PyJson.JNull "not json"
             eq_refl eq_refl ltac:(discriminate) ltac:(reflexivity)
             eq_refl eq_refl eq_refl eq_refl I eq_refl).
  split; reflexivity.
Defined.

Lemma envelope_without_choices_gives_statistics_only_witness :
  fst (Extract.run (ext := MoreSamples.http_with MoreSamples.without_choices) ["a.jpg"])
  = Ok tt
  /\ Extract.results
       (snd (Extract.run (ext := MoreSamples.http_with MoreSamples.without_choices)
               ["a.jpg"]))
     = Some (Extract.statistics_text
               (ext := MoreSamples.http_with MoreSamples.without_choices)
               1 2500%float 2500%float (PyJson.JInt 0) (PyJson.JInt 0) (PyJson.JInt 0)).
Proof.
  rewrite (envelope_without_choices_gives_statistics_only
             (ext := MoreSamples.http_with MoreSamples.without_choices)
             ["a.jpg"] "key" "https://example.invalid/v1" MoreSamples.without_choices
             (PyJson.JObj [("choices", PyJson.JArr [])]) []
             eq_refl eq_refl ltac:(discriminate) ltac:(reflexivity)
             eq_refl eq_refl
             (or_intror (ex_intro _ (PyJson.JArr []) (conj eq_refl (conj eq_refl eq_refl))))
             eq_refl).
  split; reflexivity.
Defined.
